(** * MCMC diagnostics of PINTS: autocorrelation, effective sample size, rhat

    A shallow embedding of [pints/_diagnostics.py] and of the summary
    computation of [pints/_mcmc/_results.py].

    Numbers.  The source computes with NumPy [float64] values and Python
    integers.  The embedding is written once over an interface [Numeric]
    of the operations the source uses and is instantiated twice: with the
    kernel's binary64 floats ([float64], IEEE 754 with NaN and infinities,
    which evaluates) and with the real numbers ([exact], for the statements
    the specification makes "in exact arithmetic").

    Arrays.  A NumPy array is its shape together with its entries as nested
    lists in row-major order.

    Exceptions.  A function that can raise returns a [result]. *)

From Stdlib Require Import String DecimalString List ZArith Lia Bool Arith.
From Stdlib Require Import Floats Reals Lra R_Ifp.
Import ListNotations.

Set Implicit Arguments.

(* ================================================================= *)
(** ** Numbers *)

(** Outcome of Python's [int(x)] on a float: truncation towards zero, a
    [ValueError] on NaN, an [OverflowError] on an infinity. *)
Inductive int_conv : Type :=
| IsInt (z : Z)
| IsNaN
| IsInfinite.

(** The numeric operations of the source: conversion of a Python [int],
    [+], [-], [*], true division [/], [np.sqrt], the comparisons [<] and
    [<=], and [int(.)]. *)
Class Numeric (F : Type) : Type := {
  Fof_int : Z -> F;
  Fadd : F -> F -> F;
  Fsub : F -> F -> F;
  Fmul : F -> F -> F;
  Fdiv : F -> F -> F;
  Fsqrt : F -> F;
  Fltb : F -> F -> bool;
  Fleb : F -> F -> bool;
  Fto_int : F -> int_conv
}.

(** *** binary64 *)

Definition float_of_Z (z : Z) : float :=
  match z with
  | Z0 => PrimFloat.of_uint63 (Uint63.of_Z 0)
  | Zpos _ => PrimFloat.of_uint63 (Uint63.of_Z z)
  | Zneg _ => PrimFloat.opp (PrimFloat.of_uint63 (Uint63.of_Z (Z.opp z)))
  end.

Definition float_to_int (x : float) : int_conv :=
  match Prim2SF x with
  | S754_zero _ => IsInt 0
  | S754_infinity _ => IsInfinite
  | S754_nan => IsNaN
  | S754_finite s m e =>
      let a := match e with
               | Z0 => Zpos m
               | Zpos _ => (Zpos m * 2 ^ e)%Z
               | Zneg _ => (Zpos m / 2 ^ (Z.opp e))%Z
               end in
      IsInt (if s then Z.opp a else a)
  end.

(** [float_of_Z] is the conversion of a Python [int] for magnitudes
    below [2^63], which covers every array size. *)
#[export] Instance float64 : Numeric float := {
  Fof_int := float_of_Z;
  Fadd := PrimFloat.add;
  Fsub := PrimFloat.sub;
  Fmul := PrimFloat.mul;
  Fdiv := PrimFloat.div;
  Fsqrt := PrimFloat.sqrt;
  Fltb := PrimFloat.ltb;
  Fleb := PrimFloat.leb;
  Fto_int := float_to_int
}.

(** *** exact arithmetic *)

Definition Rltb (a b : R) : bool := if Rlt_dec a b then true else false.

Definition Rleb (a b : R) : bool := if Rle_dec a b then true else false.

Definition Rtrunc (r : R) : Z :=
  if Rlt_dec r 0 then Z.opp (Int_part (Ropp r)) else Int_part r.

#[export] Instance exact : Numeric R := {
  Fof_int := IZR;
  Fadd := Rplus;
  Fsub := Rminus;
  Fmul := Rmult;
  Fdiv := Rdiv;
  Fsqrt := sqrt;
  Fltb := Rltb;
  Fleb := Rleb;
  Fto_int := fun r => IsInt (Rtrunc r)
}.

(* ================================================================= *)
(** ** Exceptions *)

(** The messages of the [raise] statements of the source, with the values
    formatted into them, and of the exceptions raised by the library
    calls the source makes. *)
Inductive message (F : Type) : Type :=
| Msg_samples_2d
    (* 'Samples must be given as a 2d array.' *)
| Msg_two_samples
    (* 'At least two samples must be given.' *)
| Msg_dimension (ndim : nat)
    (* 'Dimension of chains is %d. Method computes R^hat for one  or
       multiple parameters and therefore only accepts 2 or 3 dimensional
       arrays.' *)
| Msg_num_chains (m : nat)
    (* 'Number of chains is %d. Method needs at least 2 chains.' *)
| Msg_warm_up (w : F)
    (* 'warum_up is set to %f. warm_up only takes values in [0,1].' *)
| Msg_num_samples (n : nat)
    (* 'Number of samples per chain after warm-up and chain splitting is
       %d. Method needs at least 2 samples per chain.' *)
| Msg_vanishing_variance
    (* 'Vanishing mean within-chain variance leads to :' *)
| Msg_division_by_zero
    (* Python's own 'division by zero' *)
| Msg_int_of_nan
    (* 'cannot convert float NaN to integer' *)
| Msg_int_of_infinity
    (* 'cannot convert float infinity to integer' *)
| Msg_correlate_empty
    (* np.correlate: 'first argument cannot be empty' *)
| Msg_elapsed_time
    (* 'Elapsed time must be positive.' *)
| Msg_parameter_names
    (* 'Parameter names list must be same length as number of sampled
       parameters' *)
| Msg_vstack_empty
    (* np.vstack: 'need at least one array to concatenate' *)
| Msg_vstack_mismatch
    (* np.vstack: 'all the input array dimensions except for the
       concatenation axis must match exactly' *)
| Msg_index.
    (* 'list index out of range', 'index is out of bounds' *)

Arguments Msg_samples_2d {F}.
Arguments Msg_two_samples {F}.
Arguments Msg_dimension {F} ndim.
Arguments Msg_num_chains {F} m.
Arguments Msg_num_samples {F} n.
Arguments Msg_vanishing_variance {F}.
Arguments Msg_division_by_zero {F}.
Arguments Msg_int_of_nan {F}.
Arguments Msg_int_of_infinity {F}.
Arguments Msg_correlate_empty {F}.
Arguments Msg_elapsed_time {F}.
Arguments Msg_parameter_names {F}.
Arguments Msg_vstack_empty {F}.
Arguments Msg_vstack_mismatch {F}.
Arguments Msg_index {F}.

Inductive exn (F : Type) : Type :=
| ValueError (msg : message F)
| ZeroDivisionError (msg : message F)
| OverflowError (msg : message F)
| IndexError (msg : message F)
| AttributeError (object attribute : string).

Arguments AttributeError {F} object attribute.

Inductive result (F A : Type) : Type :=
| Ok (a : A)
| Raise (e : exn F).

Arguments Ok {F A} a.
Arguments Raise {F A} e.

Definition bind {F A B : Type} (r : result F A) (k : A -> result F B)
  : result F B :=
  match r with
  | Ok a => k a
  | Raise e => Raise e
  end.

Notation "x <- r ;; k" := (bind r (fun x => k))
  (at level 61, r at next level, right associativity).

(** The error names of the specification (its section 7), as names for
    the raise sites of the source, which raises plain [ValueError] and
    [ZeroDivisionError].  No raise site of the source corresponds to
    [DegenerateInputError]. *)
Inductive error_kind : Type :=
| InvalidShapeError
| InsufficientDataError
| InsufficientChainsError
| InvalidParameterError
| DegenerateVarianceError
| DegenerateInputError.

Definition taxonomy {F : Type} (e : exn F) : option error_kind :=
  match e with
  | ValueError Msg_samples_2d => Some InvalidShapeError
  | ValueError (Msg_dimension _) => Some InvalidShapeError
  | ValueError Msg_two_samples => Some InsufficientDataError
  | ValueError (Msg_num_samples _) => Some InsufficientDataError
  | ValueError (Msg_num_chains _) => Some InsufficientChainsError
  | ValueError (Msg_warm_up _) => Some InvalidParameterError
  | ZeroDivisionError Msg_vanishing_variance => Some DegenerateVarianceError
  | _ => None
  end.

(** [r] fails with the error the specification calls [k]. *)
Definition fails_with {F A : Type} (r : result F A) (k : error_kind) : Prop :=
  exists e, r = Raise e /\ taxonomy e = Some k.

Definition returns {F A : Type} (r : result F A) : Prop :=
  exists a, r = Ok a.

(* ================================================================= *)
(** ** Arrays *)

Fixpoint zip_with {A B C : Type} (f : A -> B -> C) (l1 : list A) (l2 : list B)
  : list C :=
  match l1, l2 with
  | a :: t1, b :: t2 => f a b :: zip_with f t1 t2
  | _, _ => []
  end.

(** The arrays of rank 2, shape [(m, n)], and of rank 3, shape
    [(m, n, p)], which [_within], [_between] and the body of [rhat] work
    on. *)
Inductive chains_array (F : Type) : Type :=
| Nd2 (m n : nat) (rows : list (list F))
| Nd3 (m n p : nat) (blocks : list (list (list F))).

(** A NumPy array: of rank 2 or 3, or of any other rank, of which the
    source reads the shape only. *)
Inductive ndarray (F : Type) : Type :=
| Rank23 (c : chains_array F)
| NdOther (shape : list nat).

Arguments NdOther {F} shape.

Coercion Rank23 : chains_array >-> ndarray.

Definition shape {F : Type} (a : ndarray F) : list nat :=
  match a with
  | Rank23 (Nd2 m n _) => [m; n]
  | Rank23 (Nd3 m n p _) => [m; n; p]
  | NdOther s => s
  end.

Definition ndim {F : Type} (a : ndarray F) : nat := length (shape a).

(** The entries agree with the shape. *)
Definition rect2 {F : Type} (m n : nat) (rows : list (list F)) : Prop :=
  length rows = m /\ Forall (fun r => length r = n) rows.

Definition rect3 {F : Type} (m n p : nat) (blocks : list (list (list F)))
  : Prop :=
  length blocks = m /\ Forall (rect2 n p) blocks.

Definition well_formed_chains {F : Type} (c : chains_array F) : Prop :=
  match c with
  | Nd2 m n rows => rect2 m n rows
  | Nd3 m n p blocks => rect3 m n p blocks
  end.

Definition well_formed {F : Type} (a : ndarray F) : Prop :=
  match a with
  | Rank23 c => well_formed_chains c
  | NdOther s => length s <> 2 /\ length s <> 3
  end.

(** A Python slice [l[start:]] and [l[:stop]] of a sequence, for an
    integer bound of either sign. *)
Definition slice_bound (len : nat) (i : Z) : nat :=
  if (i <? 0)%Z then Z.to_nat (Z.max (Z.of_nat len + i) 0)
  else Nat.min (Z.to_nat i) len.

Definition slice_from {A : Type} (start : Z) (l : list A) : list A :=
  skipn (slice_bound (length l) start) l.

Definition slice_to {A : Type} (stop : Z) (l : list A) : list A :=
  firstn (slice_bound (length l) stop) l.

(** Column [i] of a matrix given by its rows: [a[:, i]]. *)
Definition column {F : Type} (d : F) (i : nat) (rows : list (list F)) : list F :=
  map (fun r => nth i r d) rows.

(* ================================================================= *)
(** ** NumPy reductions *)

Section Numpy.

Context {F : Type} {NF : Numeric F}.

Definition of_nat (n : nat) : F := Fof_int (Z.of_nat n).

(** [np.sum] of a one-dimensional array, added from left to right.  NumPy
    adds an array of eight or more entries in another order (pairwise),
    which gives the same sum in exact arithmetic and can differ in the
    last bits on binary64. *)
Definition np_sum (l : list F) : F :=
  match l with
  | [] => Fof_int 0
  | x :: t => fold_left Fadd t x
  end.

(** [np.mean]: the sum divided by the number of entries. *)
Definition np_mean (l : list F) : F :=
  Fdiv (np_sum l) (of_nat (length l)).

(** [np.var(l, ddof=ddof)]: the sum of the squared deviations from the
    mean, divided by [max(n - ddof, 0)]. *)
Definition np_var (ddof : nat) (l : list F) : F :=
  let mu := np_mean l in
  let d := map (fun x => Fsub x mu) l in
  Fdiv (np_sum (map (fun y => Fmul y y) d)) (of_nat (length l - ddof)).

Definition np_std (l : list F) : F := Fsqrt (np_var 0 l).

(** Reductions along axis 0 of an array of shape [(n, p)], given by its
    [n] rows: the result has shape [(p,)]. *)
Definition sum_axis0 (p : nat) (rows : list (list F)) : list F :=
  match rows with
  | [] => repeat (Fof_int 0) p
  | r :: t => fold_left (zip_with Fadd) t r
  end.

Definition mean_axis0 (p : nat) (rows : list (list F)) : list F :=
  map (fun s => Fdiv s (of_nat (length rows))) (sum_axis0 p rows).

Definition var_axis0 (ddof p : nat) (rows : list (list F)) : list F :=
  let mu := mean_axis0 p rows in
  let d := map (fun r => zip_with Fsub r mu) rows in
  map (fun s => Fdiv s (of_nat (length rows - ddof)))
      (sum_axis0 p (map (map (fun y => Fmul y y)) d)).

(** [np.correlate(a, v, mode='full')]: entry [i] is the sum over the
    overlap of [a[j + i - (M - 1)] * v[j]], for [i] from [0] to
    [N + M - 2]; it raises on an empty argument.  The products are added
    from left to right; the order NumPy adds them in matters on binary64
    only. *)
Definition dot (a v : list F) : F := np_sum (zip_with Fmul a v).

Definition np_correlate_full (a v : list F) : result F (list F) :=
  match a, v with
  | [], _ => Raise (ValueError Msg_correlate_empty)
  | _, [] => Raise (ValueError Msg_correlate_empty)
  | _, _ =>
      let N := length a in
      let M := length v in
      Ok (map (fun i => if i <? M - 1
                        then dot a (skipn (M - 1 - i) v)
                        else dot (skipn (i - (M - 1)) a) v)
              (seq 0 (N + M - 1)))
  end.

(* ================================================================= *)
(** ** [pints/_diagnostics.py] *)

(** [autocorrelation(x)].  [result.size / 2] is a true division of a
    non-negative integer and [int] truncates it: the floor of the half. *)
Definition autocorrelation (x : list F) : result F (list F) :=
  let mu := np_mean x in
  let s := Fmul (np_std x) (Fsqrt (of_nat (length x))) in
  let x := map (fun xi => Fdiv (Fsub xi mu) s) x in
  result <- np_correlate_full x x ;;
  Ok (skipn (length result / 2) result).

(** [autocorrelate_negative(autocorrelation)]: the loop with its counter
    [T], which is at least 1 where it is decremented. *)
Fixpoint autocorrelate_negative_loop (T : nat) (autocorrelation : list F)
  : nat :=
  match autocorrelation with
  | [] => T
  | a :: rest =>
      if Fltb a (Fof_int 0) then T - 1
      else autocorrelate_negative_loop (T + 1) rest
  end.

Definition autocorrelate_negative (autocorrelation : list F) : nat :=
  autocorrelate_negative_loop 1 autocorrelation.

(** [ess_single_param(x)]. *)
Definition ess_of (n : nat) (rho : list F) (T : nat) : F :=
  Fdiv (of_nat n)
       (Fadd (Fof_int 1) (Fmul (Fof_int 2) (np_sum (firstn T rho)))).

Definition ess_single_param (x : list F) : result F F :=
  rho <- autocorrelation x ;;
  let T := autocorrelate_negative rho in
  let n := length x in
  Ok (ess_of n rho T).

(** A list comprehension over calls that can raise: the calls are made in
    order and the first exception ends the comprehension. *)
Fixpoint comprehension {A B : Type} (f : A -> result F B) (l : list A)
  : result F (list B) :=
  match l with
  | [] => Ok []
  | a :: t => b <- f a ;; bs <- comprehension f t ;; Ok (b :: bs)
  end.

(** [effective_sample_size(samples)]: unpacking [samples.shape] into two
    names raises a [ValueError] for every rank but 2, which the [except]
    clause turns into the 2d message. *)
Definition effective_sample_size (samples : ndarray F) : result F (list F) :=
  match samples with
  | Rank23 (Nd2 n_samples n_params rows) =>
      if n_samples <? 2 then Raise (ValueError Msg_two_samples)
      else comprehension
             (fun i => ess_single_param (column (Fof_int 0) i rows))
             (seq 0 n_params)
  | _ => Raise (ValueError Msg_samples_2d)
  end.

End Numpy.

(* ================================================================= *)
(** ** [rhat] *)

(** A result of [rhat]: a NumPy scalar, or an array of shape [(p,)]. *)
Inductive value (F : Type) : Type :=
| Scalar (x : F)
| Vector (v : list F).

(** Element-wise operations with broadcasting of a scalar.  Two vectors
    are combined entry by entry; in [rhat] they have the same length. *)
Definition vmap {F : Type} (f : F -> F) (a : value F) : value F :=
  match a with
  | Scalar x => Scalar (f x)
  | Vector v => Vector (map f v)
  end.

Definition vmap2 {F : Type} (f : F -> F -> F) (a b : value F) : value F :=
  match a, b with
  | Scalar x, Scalar y => Scalar (f x y)
  | Scalar x, Vector v => Vector (map (f x) v)
  | Vector u, Scalar y => Vector (map (fun x => f x y) u)
  | Vector u, Vector v => Vector (zip_with f u v)
  end.

Section Rhat.

Context {F : Type} {NF : Numeric F}.

(** [chains.shape[0]] and [chains.shape[1]]. *)
Definition shape0 (a : ndarray F) : nat := nth 0 (shape a) 0.
Definition shape1 (a : ndarray F) : nat := nth 1 (shape a) 0.

(** [chains[:, start:]]. *)
Definition drop_samples (start : Z) (c : chains_array F) : chains_array F :=
  match c with
  | Nd2 m n rows =>
      Nd2 m (n - slice_bound n start) (map (slice_from start) rows)
  | Nd3 m n p blocks =>
      Nd3 m (n - slice_bound n start) p (map (slice_from start) blocks)
  end.

(** [np.vstack([chains[:, :n], chains[:, -n:]])]. *)
Definition split_halves (n : nat) (c : chains_array F) : chains_array F :=
  match c with
  | Nd2 m l rows =>
      Nd2 (m + m) (slice_bound l (Z.of_nat n))
          (map (slice_to (Z.of_nat n)) rows
           ++ map (slice_from (- Z.of_nat n)) rows)
  | Nd3 m l p blocks =>
      Nd3 (m + m) (slice_bound l (Z.of_nat n)) p
          (map (slice_to (Z.of_nat n)) blocks
           ++ map (slice_from (- Z.of_nat n)) blocks)
  end.

(** [_within(chains)]: [np.var(chains, axis=1, ddof=1)], then [np.mean]
    along axis 0. *)
Definition _within (chains : chains_array F) : value F :=
  match chains with
  | Nd2 _ _ rows =>
      let within_chain_var := map (np_var 1) rows in
      Scalar (np_mean within_chain_var)
  | Nd3 _ _ p blocks =>
      let within_chain_var := map (var_axis0 1 p) blocks in
      Vector (mean_axis0 p within_chain_var)
  end.

(** [_between(chains)]: [np.mean(chains, axis=1)], then [np.var] along
    axis 0 with [ddof=1], weighted with [chains.shape[1]]. *)
Definition _between (chains : chains_array F) : value F :=
  let n := shape1 chains in
  match chains with
  | Nd2 _ _ rows =>
      let within_chain_means := map np_mean rows in
      let between_chain_var := np_var 1 within_chain_means in
      Scalar (Fmul (of_nat n) between_chain_var)
  | Nd3 _ _ p blocks =>
      let within_chain_means := map (mean_axis0 p) blocks in
      let between_chain_var := var_axis0 1 p within_chain_means in
      Vector (map (Fmul (of_nat n)) between_chain_var)
  end.

(** The true division [a / b] of two Python integers. *)
Definition int_truediv (a b : Z) : result F F :=
  if (b =? 0)%Z then Raise (ZeroDivisionError Msg_division_by_zero)
  else Ok (Fdiv (Fof_int a) (Fof_int b)).

(** [np.sqrt((n - 1) / n + b / (w * n))]: [w] and [b] are NumPy values,
    whose division follows IEEE 754 and raises nothing. *)
Definition rhat_combine (n : nat) (w b : value F) : result F (value F) :=
  q <- int_truediv (Z.of_nat n - 1) (Z.of_nat n) ;;
  Ok (vmap Fsqrt
        (vmap (Fadd q) (vmap2 Fdiv b (vmap (fun x => Fmul x (of_nat n)) w)))).

(** [try: ... except ZeroDivisionError as e: raise ZeroDivisionError(...)]. *)
Definition except_ZeroDivisionError {A : Type} (r : result F A) : result F A :=
  match r with
  | Raise (ZeroDivisionError _) =>
      Raise (ZeroDivisionError Msg_vanishing_variance)
  | _ => r
  end.

(** [int(x)]. *)
Definition py_int (x : F) : result F Z :=
  match Fto_int x with
  | IsInt z => Ok z
  | IsNaN => Raise (ValueError Msg_int_of_nan)
  | IsInfinite => Raise (OverflowError Msg_int_of_infinity)
  end.

(** The body of [rhat] after the three checks. *)
Definition rhat_checked (chains : chains_array F) (warm_up : F)
  : result F (value F) :=
  let n := shape1 chains in
  start <- py_int (Fmul (of_nat n) warm_up) ;;
  let chains := drop_samples start chains in
  let n := shape1 chains in
  let n := n / 2 in
  if n <? 2 then Raise (ValueError (Msg_num_samples n))
  else
    let chains := split_halves n chains in
    let w := _within chains in
    let b := _between chains in
    except_ZeroDivisionError (rhat_combine n w b).

(** [rhat(chains, warm_up=0.0)].  An array of another rank does not pass
    the first test. *)
Definition rhat (chains : ndarray F) (warm_up : F) : result F (value F) :=
  if negb ((ndim chains =? 2) || (ndim chains =? 3))
  then Raise (ValueError (Msg_dimension (ndim chains)))
  else if shape0 chains <? 2
  then Raise (ValueError (Msg_num_chains (shape0 chains)))
  else if Fltb (Fof_int 1) warm_up || Fltb warm_up (Fof_int 0)
  then Raise (ValueError (Msg_warm_up warm_up))
  else
    match chains with
    | Rank23 c => rhat_checked c warm_up
    | NdOther _ => Raise (ValueError (Msg_dimension (ndim chains)))
    end.

End Rhat.

(* ================================================================= *)
(** ** [pints/_mcmc/_results.py] *)

(** The names bound at the top level of [pints/_diagnostics.py]: the
    import of NumPy and the seven functions it defines. *)
Definition diagnostics_namespace : list string :=
  ["np"; "autocorrelation"; "autocorrelate_negative"; "ess_single_param";
   "effective_sample_size"; "_within"; "_between"; "rhat"]%string.

Definition has_attribute (name : string) : bool :=
  existsb (String.eqb name) diagnostics_namespace.

(** An entry of a summary row: a string or a number. *)
Inductive cell (F : Type) : Type :=
| Str (s : string)
| Num (x : F).

Arguments Str {F} s.

(** One chain of the aggregator: an array of shape [(n_rows, n_cols)]. *)
Record matrix (F : Type) : Type := Matrix {
  n_rows : nat;
  n_cols : nat;
  entries : list (list F)
}.

Definition to_ndarray {F : Type} (a : matrix F) : ndarray F :=
  Rank23 (Nd2 (n_rows a) (n_cols a) (entries a)).

(** The attributes of an [MCMCResults] object; those that [make_summary]
    creates are absent until it has run. *)
Record MCMCResults (F : Type) : Type := Build_MCMCResults {
  _chains : list (matrix F);
  _num_params : nat;
  _time : option F;
  _parameter_names : list string;
  _summary_list : list (list (cell F));
  _mean : option (list F);
  _std : option (list F);
  _quantiles : option (list (list F));
  _ess : option (list F);
  _ess_per_second : option (list F);
  _num_chains : option nat;
  _rhat : option (list (cell F))
}.

(** [str(n)] of a non-negative integer. *)
Definition str (n : nat) : string :=
  NilZero.string_of_uint (Nat.to_uint n).

Section Results.

Context {F : Type} {NF : Numeric F}.

(** [np.percentile(a, q, axis=0)] of an array given by its rows: one row
    of the result for each entry of [q]. *)
Variable np_percentile : list (list F) -> list F -> list (list F).

(** The call of an attribute that [pints._diagnostics] has, on the list
    of chains. *)
Variable call_diagnostics :
  string -> list (matrix F) -> result F (list (cell F)).

(** [l[i]] for a non-negative index. *)
Definition getitem {A : Type} (l : list A) (i : nat) : result F A :=
  match nth_error l i with
  | Some a => Ok a
  | None => Raise (IndexError Msg_index)
  end.

(** [np.vstack] of a list of arrays of rank 2. *)
Definition np_vstack (arrays : list (matrix F)) : result F (matrix F) :=
  match arrays with
  | [] => Raise (ValueError Msg_vstack_empty)
  | a :: rest =>
      if forallb (fun b => n_cols b =? n_cols a) rest
      then Ok (Matrix (list_sum (map (@n_rows F) arrays)) (n_cols a)
                      (concat (map (@entries F) arrays)))
      else Raise (ValueError Msg_vstack_mismatch)
  end.

(** [MCMCResults(chains, time=None, parameter_names=None)]. *)
Definition MCMCResults_init (chains : list (matrix F)) (time : option F)
    (parameter_names : option (list string)) : result F (MCMCResults F) :=
  first <- getitem chains 0 ;;
  let num_params := n_cols first in
  if match time with Some t => Fleb t (Fof_int 0) | None => false end
  then Raise (ValueError Msg_elapsed_time)
  else if match parameter_names with
          | Some names => negb (num_params =? length names)
          | None => false
          end
  then Raise (ValueError Msg_parameter_names)
  else
    let parameter_names :=
      match parameter_names with
      | Some names => names
      | None => map (fun i => String.append "param " (str (i + 1)))
                    (seq 0 num_params)
      end in
    Ok (Build_MCMCResults chains num_params time parameter_names []
          None None None None None None None).

(** The percentages [2.5, 25, 50, 75, 97.5]. *)
Definition percentages : list F :=
  [Fdiv (Fof_int 5) (Fof_int 2); Fof_int 25; Fof_int 50; Fof_int 75;
   Fdiv (Fof_int 195) (Fof_int 2)].

(** The [if self._num_chains > 1: ... else: ...] of [make_summary]:
    looking up [rhat_all_params] in the module precedes its call. *)
Definition summary_rhat (self : MCMCResults F) (num_chains : nat)
  : result F (list (cell F)) :=
  if 1 <? num_chains then
    if has_attribute "rhat_all_params"
    then call_diagnostics "rhat_all_params" (_chains self)
    else Raise (AttributeError "pints._diagnostics" "rhat_all_params")
  else Ok (repeat (Str "NA") (_num_params self)).

(** One row of the summary list. *)
Definition summary_row (name : string) (mean std : list F)
    (quantiles : list (list F)) (rhat : list (cell F)) (ess : list F)
    (ess_per_second : option (list F)) (i : nat) : result F (list (cell F)) :=
  m <- getitem mean i ;;
  s <- getitem std i ;;
  q0 <- (r <- getitem quantiles 0 ;; getitem r i) ;;
  q1 <- (r <- getitem quantiles 1 ;; getitem r i) ;;
  q2 <- (r <- getitem quantiles 2 ;; getitem r i) ;;
  q3 <- (r <- getitem quantiles 3 ;; getitem r i) ;;
  q4 <- (r <- getitem quantiles 4 ;; getitem r i) ;;
  rh <- getitem rhat i ;;
  e <- getitem ess i ;;
  let row := [Str name; Num m; Num s; Num q0; Num q1; Num q2; Num q3;
              Num q4; rh; Num e] in
  match ess_per_second with
  | Some eps => x <- getitem eps i ;; Ok (row ++ [Num x])
  | None => Ok row
  end.

(** [make_summary(self)]: the object with the attributes it sets, or the
    exception that ends it (the attributes assigned before the exception
    are not part of the outcome). *)
Definition make_summary (self : MCMCResults F) : result F (MCMCResults F) :=
  stacked <- np_vstack (_chains self) ;;
  let mean := mean_axis0 (n_cols stacked) (entries stacked) in
  let std := map Fsqrt (var_axis0 0 (n_cols stacked) (entries stacked)) in
  let quantiles := np_percentile (entries stacked) percentages in
  ess <- effective_sample_size (to_ndarray stacked) ;;
  let ess_per_second :=
    match _time self with
    | Some t => Some (map (fun e => Fdiv e t) ess)
    | None => _ess_per_second self
    end in
  let num_chains := length (_chains self) in
  rhat <- summary_rhat self num_chains ;;
  rows <- comprehension
            (fun i =>
               match _time self with
               | Some _ =>
                   name <- getitem (_parameter_names self) i ;;
                   summary_row name mean std quantiles rhat ess
                               ess_per_second i
               | None =>
                   summary_row (String.append "param " (str (i + 1)))
                               mean std quantiles rhat ess None i
               end)
            (seq 0 (_num_params self)) ;;
  Ok (Build_MCMCResults (_chains self) (_num_params self) (_time self)
        (_parameter_names self) (_summary_list self ++ rows)
        (Some mean) (Some std) (Some quantiles) (Some ess) ess_per_second
        (Some num_chains) (Some rhat)).

(** [summary(self)]: the summary list, computed on the first call. *)
Definition summary (self : MCMCResults F)
  : result F (MCMCResults F * list (list (cell F))) :=
  match _summary_list self with
  | [] => self <- make_summary self ;; Ok (self, _summary_list self)
  | rows => Ok (self, rows)
  end.

End Results.

(** *** The accessors and [extract] *)

Section ResultsAccess.

Context {F : Type} {NF : Numeric F}.

(** Reading an attribute that [make_summary] creates: an
    [AttributeError] of the object while it is absent. *)
Definition get_attribute {A : Type} (name : string) (v : option A)
  : result F A :=
  match v with
  | Some a => Ok a
  | None => Raise (AttributeError "MCMCResults" name)
  end.

(** [chains(self)], [mean(self)], [std(self)], [quantiles(self)],
    [rhat(self)], [ess(self)], [ess_per_second(self)], [time(self)]. *)
Definition chains (self : MCMCResults F) : result F (list (matrix F)) :=
  Ok (_chains self).

Definition mean (self : MCMCResults F) : result F (list F) :=
  get_attribute "_mean" (_mean self).

Definition std (self : MCMCResults F) : result F (list F) :=
  get_attribute "_std" (_std self).

Definition quantiles (self : MCMCResults F) : result F (list (list F)) :=
  get_attribute "_quantiles" (_quantiles self).

Definition results_rhat (self : MCMCResults F) : result F (list (cell F)) :=
  get_attribute "_rhat" (_rhat self).

Definition ess (self : MCMCResults F) : result F (list F) :=
  get_attribute "_ess" (_ess self).

Definition ess_per_second (self : MCMCResults F) : result F (list F) :=
  get_attribute "_ess_per_second" (_ess_per_second self).

Definition time (self : MCMCResults F) : result F (option F) :=
  Ok (_time self).

(** An integer index into an axis of length [len]: a negative index
    counts from the end, an index outside [-len .. len - 1] raises
    [IndexError]. *)
Definition np_index (len : nat) (i : Z) : result F nat :=
  if ((0 <=? i) && (i <? Z.of_nat len))%Z then Ok (Z.to_nat i)
  else if ((- Z.of_nat len <=? i) && (i <? 0))%Z
       then Ok (Z.to_nat (Z.of_nat len + i))
       else Raise (IndexError Msg_index).

(** [extract(self, param_number)]: [np.vstack(self._chains)[:,
    param_number]]. *)
Definition extract (self : MCMCResults F) (param_number : Z)
  : result F (list F) :=
  stacked <- np_vstack (_chains self) ;;
  j <- np_index (n_cols stacked) param_number ;;
  Ok (column (Fof_int 0) j (entries stacked)).

(** [extract_all(self)]. *)
Definition extract_all (self : MCMCResults F) : result F (matrix F) :=
  np_vstack (_chains self).

End ResultsAccess.

(* ================================================================= *)
(** ** The statements of the specification *)

Section Specification.

Context {F : Type} {NF : Numeric F}.

(** Section 4.2: the number of leading lags before the first strictly
    negative one. *)
Fixpoint leading_run (rho : list F) : nat :=
  match rho with
  | [] => 0
  | a :: rest => if Fltb a (Fof_int 0) then 0 else S (leading_run rest)
  end.

Definition has_negative (rho : list F) : bool :=
  existsb (fun a => Fltb a (Fof_int 0)) rho.

(** [ess_single_param] with the truncation lag clamped to the length of
    the sequence before the slice is taken. *)
Definition ess_single_param_clamped (x : list F) : result F F :=
  rho <- autocorrelation x ;;
  let T := Nat.min (autocorrelate_negative rho) (length x) in
  let n := length x in
  Ok (ess_of n rho T).

(** Section 4.1: the sequence centred and scaled by its standard
    deviation and by the square root of its length. *)
Definition scaled (x : list F) : list F :=
  map (fun xi => Fdiv (Fsub xi (np_mean x))
                      (Fmul (np_std x) (Fsqrt (of_nat (length x))))) x.

(** Section 4.7, steps 2 and 3: the chains of one parameter without their
    first [k] samples, and the first and last [n'] samples of every chain
    stacked as chains of their own. *)
Definition trim_warmup {A : Type} (k : nat) (chains : list (list A))
  : list (list A) :=
  map (skipn k) chains.

Definition pseudo_chains {A : Type} (n' : nat) (chains : list (list A))
  : list (list A) :=
  map (firstn n') chains ++ map (fun c => skipn (length c - n') c) chains.

(** Sections 4.5 and 4.6: the sample variance with denominator one less
    than the number of values, the mean within-chain variance and the
    between-chain variance. *)
Definition unbiased_variance (l : list F) : F :=
  Fdiv (np_sum (map (fun x => Fmul (Fsub x (np_mean l)) (Fsub x (np_mean l)))
                    l))
       (of_nat (length l - 1)).

Definition within_variance (chains : list (list F)) : F :=
  np_mean (map unbiased_variance chains).

Definition between_variance (n' : nat) (chains : list (list F)) : F :=
  Fmul (of_nat n') (unbiased_variance (map np_mean chains)).

(** Section 4.7, step 6. *)
Definition rhat_formula (n' : nat) (chains : list (list F)) : F :=
  Fsqrt (Fadd (Fdiv (of_nat (n' - 1)) (of_nat n'))
              (Fdiv (between_variance n' chains)
                    (Fmul (within_variance chains) (of_nat n')))).

(** The chains of parameter [j]: [chains[:, :, j]]. *)
Definition parameter (j : nat) (blocks : list (list (list F)))
  : list (list F) :=
  map (column (Fof_int 0) j) blocks.

(** Section 4.7, step 1: the three tests on the rank, on the number of
    chains and on [warm_up], which read the shape of the array only. *)
Definition passes_validation (shape : list nat) (warm_up : F) : bool :=
  ((length shape =? 2) || (length shape =? 3))
  && (2 <=? nth 0 shape 0)
  && negb (Fltb (Fof_int 1) warm_up)
  && negb (Fltb warm_up (Fof_int 0)).

(** The value of the specification for the chains of one parameter. *)
Definition rhat_of_parameter (k n' : nat) (chains : list (list F)) : F :=
  rhat_formula n' (pseudo_chains n' (trim_warmup k chains)).

End Specification.

(** The sum of [f 0], ..., [f (k - 1)] of real numbers, and the
    autocorrelation sum of section 4.1 at lag [d]: the products of the
    entries of [z] that are [d] apart. *)
Definition sum_upto (f : nat -> R) (k : nat) : R :=
  fold_right Rplus 0%R (map f (seq 0 k)).

Definition lag_sum (z : list R) (d : nat) : R :=
  sum_upto (fun j => (nth (j + d) z 0 * nth j z 0)%R) (length z - d).

(** The sum of the lags [1], ..., [n - 1] of the products of [z] with
    itself shifted. *)
Definition later_lags (z : list R) : R :=
  fold_right Rplus 0%R
    (map (fun d => dot (skipn d z) z) (seq 1 (length z - 1))).

(** Section 4.7, step 2, in exact arithmetic: the number of samples
    dropped, [floor(warm_up * n)]. *)
Definition warm_up_samples (n : nat) (warm_up : R) : nat :=
  Z.to_nat (Int_part (IZR (Z.of_nat n) * warm_up)).


(* ================================================================= *)
(** ** Lists and slices *)

Lemma zip_with_length {A B C : Type} (f : A -> B -> C) l1 l2 :
  length (zip_with f l1 l2) = Nat.min (length l1) (length l2).
Proof.
  revert l2; induction l1 as [|a t IH]; intros [|b t2]; simpl; auto.
Qed.

Lemma zip_with_nth {A B C : Type} (f : A -> B -> C) l1 l2 i da db dc :
  i < length l1 -> i < length l2 ->
  nth i (zip_with f l1 l2) dc = f (nth i l1 da) (nth i l2 db).
Proof.
  revert l2 i; induction l1 as [|a t IH]; intros [|b t2] [|i] H1 H2;
    simpl in *; try lia; auto.
  apply IH; lia.
Qed.

Lemma firstn_min_length {A : Type} (k : nat) (l : list A) :
  firstn (Nat.min k (length l)) l = firstn k l.
Proof.
  destruct (Nat.le_ge_cases k (length l)) as [H|H].
  - rewrite Nat.min_l by assumption. reflexivity.
  - rewrite Nat.min_r by assumption.
    rewrite firstn_all. symmetry. apply firstn_all2. assumption.
Qed.

Lemma skipn_min_length {A : Type} (k : nat) (l : list A) :
  skipn (Nat.min k (length l)) l = skipn k l.
Proof.
  destruct (Nat.le_ge_cases k (length l)) as [H|H].
  - rewrite Nat.min_l by assumption. reflexivity.
  - rewrite Nat.min_r by assumption.
    rewrite skipn_all. symmetry. apply skipn_all2. assumption.
Qed.

Lemma nth_map_seq {A : Type} (f : nat -> A) (s n i : nat) (d : A) :
  i < n -> nth i (map f (seq s n)) d = f (s + i).
Proof.
  intros Hi.
  rewrite nth_indep with (d' := f 0)
    by (rewrite length_map, length_seq; assumption).
  rewrite map_nth. rewrite seq_nth by assumption. reflexivity.
Qed.

Lemma list_as_map_seq {A : Type} (d : A) (l : list A) :
  l = map (fun j => nth j l d) (seq 0 (length l)).
Proof.
  apply nth_ext with (d := d) (d' := d).
  - rewrite length_map, length_seq. reflexivity.
  - intros i Hi. rewrite nth_map_seq by assumption. reflexivity.
Qed.

Lemma map_seq_shift {A : Type} (f : nat -> A) (s n : nat) :
  map f (seq s n) = map (fun d => f (s + d)) (seq 0 n).
Proof.
  revert f s; induction n as [|n IH]; intros f s; simpl; [reflexivity|].
  rewrite Nat.add_0_r. f_equal.
  rewrite IH. rewrite (IH (fun d => f (s + d)) 1). apply map_ext. intros d.
  f_equal. lia.
Qed.

Lemma slice_from_nonneg {A : Type} (k : nat) (l : list A) :
  slice_from (Z.of_nat k) l = skipn k l.
Proof.
  unfold slice_from, slice_bound.
  destruct (Z.ltb_spec (Z.of_nat k) 0) as [H|H]; [lia|].
  rewrite Nat2Z.id. apply skipn_min_length.
Qed.

Lemma slice_to_nonneg {A : Type} (k : nat) (l : list A) :
  slice_to (Z.of_nat k) l = firstn k l.
Proof.
  unfold slice_to, slice_bound.
  destruct (Z.ltb_spec (Z.of_nat k) 0) as [H|H]; [lia|].
  rewrite Nat2Z.id. apply firstn_min_length.
Qed.

Lemma slice_from_last {A : Type} (k : nat) (l : list A) :
  0 < k -> slice_from (- Z.of_nat k) l = skipn (length l - k) l.
Proof.
  intros Hk. unfold slice_from, slice_bound.
  destruct (Z.ltb_spec (- Z.of_nat k) 0) as [H|H]; [|lia].
  f_equal. lia.
Qed.

(* ================================================================= *)
(** ** The truncation rule *)

Section Truncation.

Context {F : Type} {NF : Numeric F}.

Lemma autocorrelate_negative_loop_spec (rho : list F) (T : nat) :
  1 <= T ->
  autocorrelate_negative_loop T rho =
  if has_negative rho then T - 1 + leading_run rho else T + length rho.
Proof.
  revert T; induction rho as [|a rest IH]; intros T HT; simpl.
  - lia.
  - destruct (Fltb a (Fof_int 0)); simpl.
    + lia.
    + rewrite IH by lia. destruct (has_negative rest); lia.
Qed.

(** The value [autocorrelate_negative] returns: the leading run when a
    strictly negative lag exists, one more than the length otherwise. *)
Lemma autocorrelate_negative_spec (rho : list F) :
  autocorrelate_negative rho =
  if has_negative rho then leading_run rho else S (length rho).
Proof.
  unfold autocorrelate_negative.
  rewrite autocorrelate_negative_loop_spec by lia.
  destruct (has_negative rho); lia.
Qed.

Lemma leading_run_le (rho : list F) : leading_run rho <= length rho.
Proof.
  induction rho as [|a rest IH]; simpl; [lia|].
  destruct (Fltb a (Fof_int 0)); lia.
Qed.

(** Before the first strictly negative lag no lag is strictly negative,
    and the lag at which the run stops is. *)
Lemma leading_run_prefix (rho : list F) (i : nat) (d : F) :
  i < leading_run rho -> Fltb (nth i rho d) (Fof_int 0) = false.
Proof.
  revert i; induction rho as [|a rest IH]; intros i Hi; simpl in *; [lia|].
  destruct (Fltb a (Fof_int 0)) eqn:Ha; [lia|].
  destruct i as [|i]; [assumption|]. apply IH. lia.
Qed.

Lemma leading_run_stop (rho : list F) (d : F) :
  has_negative rho = true ->
  Fltb (nth (leading_run rho) rho d) (Fof_int 0) = true.
Proof.
  induction rho as [|a rest IH]; simpl; [discriminate|].
  destruct (Fltb a (Fof_int 0)) eqn:Ha; simpl; auto.
Qed.

Lemma has_negative_false (rho : list F) :
  has_negative rho = false <->
  Forall (fun a => Fltb a (Fof_int 0) = false) rho.
Proof.
  unfold has_negative. induction rho as [|a rest IH]; simpl.
  - split; auto.
  - rewrite orb_false_iff, IH. split.
    + intros [H1 H2]. constructor; assumption.
    + intros H. inversion H; subst. split; assumption.
Qed.

Lemma leading_run_no_negative (rho : list F) :
  Forall (fun a => Fltb a (Fof_int 0) = false) rho ->
  leading_run rho = length rho.
Proof.
  induction 1 as [|a rest Ha _ IH]; simpl; [reflexivity|].
  rewrite Ha, IH. reflexivity.
Qed.

(** X1.  When some lag is strictly negative, [autocorrelate_negative]
    returns the number of leading lags before the first strictly negative
    one, which is less than the length; a lag that is not strictly
    negative, zero included, does not stop the run. *)
Lemma autocorrelate_negative_first_negative (rho : list F) :
  has_negative rho = true ->
  autocorrelate_negative rho = leading_run rho /\
  leading_run rho < length rho /\
  Fltb (nth (leading_run rho) rho (Fof_int 0)) (Fof_int 0) = true /\
  forall i, i < leading_run rho ->
            Fltb (nth i rho (Fof_int 0)) (Fof_int 0) = false.
Proof.
  intros H. rewrite autocorrelate_negative_spec, H.
  split; [reflexivity|]. split; [|split].
  - clear - H. induction rho as [|a rest IH]; simpl in *; [discriminate|].
    destruct (Fltb a (Fof_int 0)); simpl in *; [lia|].
    specialize (IH H). lia.
  - apply leading_run_stop; assumption.
  - intros i Hi. apply leading_run_prefix; assumption.
Qed.

(** C3.  When no lag is strictly negative, [autocorrelate_negative]
    returns one more than the length of the sequence, not the length the
    specification gives for the truncation lag. *)
Theorem autocorrelate_negative_no_negative (rho : list F) :
  Forall (fun a => Fltb a (Fof_int 0) = false) rho ->
  autocorrelate_negative rho = S (length rho) /\
  autocorrelate_negative rho <> length rho /\
  leading_run rho = length rho.
Proof.
  intros H. rewrite autocorrelate_negative_spec.
  apply has_negative_false in H as Hn. rewrite Hn.
  split; [reflexivity|]. split; [lia|].
  apply leading_run_no_negative; assumption.
Qed.

End Truncation.

(** The autocorrelation sequence [1.0, 0.5] has no strictly negative lag. *)
Lemma autocorrelate_negative_no_negative_witness :
  Forall (fun a => Fltb a (Fof_int 0) = false) [1%float; 0.5%float] /\
  autocorrelate_negative [1%float; 0.5%float] = 3 /\
  length [1%float; 0.5%float] = 2.
Proof.
  assert (H : Forall (fun a => Fltb a (Fof_int 0) = false)
                     [1%float; 0.5%float])
    by (repeat constructor).
  split; [exact H|].
  split; [|reflexivity].
  exact (proj1 (autocorrelate_negative_no_negative (NF := float64) H)).
Defined.

(* ================================================================= *)
(** ** Autocorrelation and effective sample size *)

Section EffectiveSampleSize.

Context {F : Type} {NF : Numeric F}.

Lemma half_of_odd (n : nat) : 1 <= n -> (n + n - 1) / 2 = n - 1.
Proof.
  intros Hn. symmetry.
  apply Nat.div_unique with (r := 1); lia.
Qed.

Lemma np_correlate_full_self (z : list F) :
  z <> [] ->
  np_correlate_full z z =
  Ok (map (fun i => if i <? length z - 1
                    then dot z (skipn (length z - 1 - i) z)
                    else dot (skipn (i - (length z - 1)) z) z)
          (seq 0 (length z + length z - 1))).
Proof.
  destruct z as [|a t]; [congruence|]. reflexivity.
Qed.

Lemma scaled_length (x : list F) : length (scaled x) = length x.
Proof. unfold scaled. apply length_map. Qed.

(** [autocorrelation] unfolded: lag [d] is the product of the scaled
    sequence with itself shifted by [d], for [d] from [0] to [n - 1]. *)
Lemma autocorrelation_lags (x : list F) :
  x <> [] ->
  autocorrelation x =
  Ok (map (fun d => dot (skipn d (scaled x)) (scaled x))
          (seq 0 (length x))).
Proof.
  intros Hx. unfold autocorrelation. fold (scaled x).
  assert (Hz : scaled x <> []).
  { intros E. apply Hx. apply length_zero_iff_nil.
    rewrite <- scaled_length, E. reflexivity. }
  assert (Hn : 1 <= length x).
  { destruct x; [congruence|simpl; lia]. }
  rewrite np_correlate_full_self by assumption. cbn [bind].
  rewrite length_map, length_seq, scaled_length.
  rewrite half_of_odd by assumption.
  rewrite skipn_map, skipn_seq. f_equal.
  replace (length x + length x - 1 - (length x - 1)) with (length x) by lia.
  rewrite map_seq_shift. apply map_ext_in. intros d Hd.
  apply in_seq in Hd.
  destruct (Nat.ltb_spec (0 + (length x - 1) + d) (length x - 1)); [lia|].
  f_equal. f_equal. lia.
Qed.

Lemma autocorrelation_empty : autocorrelation (@nil F) =
                              Raise (ValueError Msg_correlate_empty).
Proof. reflexivity. Qed.

Lemma autocorrelation_returns (x : list F) :
  x <> [] ->
  exists rho, autocorrelation x = Ok rho /\ length rho = length x.
Proof.
  intros Hx. eexists. split; [apply autocorrelation_lags; assumption|].
  rewrite length_map, length_seq. reflexivity.
Qed.

Lemma autocorrelation_length (x rho : list F) :
  autocorrelation x = Ok rho -> length rho = length x.
Proof.
  intros H. destruct x as [|a t]; [discriminate|].
  destruct (autocorrelation_returns (x := a :: t)) as [rho' [H1 H2]];
    [discriminate|].
  congruence.
Qed.

Lemma ess_single_param_returns (x : list F) :
  x <> [] -> exists e, ess_single_param x = Ok e.
Proof.
  intros Hx. destruct (autocorrelation_returns Hx) as [rho [H _]].
  unfold ess_single_param. rewrite H. simpl. eauto.
Qed.

Lemma comprehension_returns {A B : Type} (f : A -> result F B) (l : list A) :
  (forall a, In a l -> exists b, f a = Ok b) ->
  exists v, comprehension f l = Ok v /\ Forall2 (fun a b => f a = Ok b) l v.
Proof.
  induction l as [|a t IH]; intros H; simpl.
  - exists []. split; [reflexivity|constructor].
  - destruct (H a (or_introl eq_refl)) as [b Hb].
    destruct IH as [v [Hv Hall]]; [intros; apply H; right; assumption|].
    exists (b :: v). rewrite Hb, Hv. simpl. split; [reflexivity|].
    constructor; assumption.
Qed.

Lemma Forall2_nth {A B : Type} (P : A -> B -> Prop) l v da db :
  Forall2 P l v ->
  length v = length l /\
  forall i, i < length l -> P (nth i l da) (nth i v db).
Proof.
  induction 1 as [|a b l v Hab _ [IH1 IH2]]; simpl.
  - split; [reflexivity|intros; lia].
  - split; [lia|]. intros [|i] Hi; [assumption|]. apply IH2. lia.
Qed.

(** C10.  [ess_single_param] returns what its variant with the truncation
    lag clamped to the length of the sequence returns, for every sequence:
    the slice [rho[0:T]] has at most [n] entries, also when no lag is
    strictly negative and [autocorrelate_negative] returns [n + 1]. *)
Theorem ess_single_param_clamped_eq (x : list F) :
  ess_single_param x = ess_single_param_clamped x /\
  forall rho, autocorrelation x = Ok rho ->
    length (firstn (autocorrelate_negative rho) rho) <= length x /\
    (has_negative rho = false ->
     autocorrelate_negative rho = S (length x) /\
     firstn (autocorrelate_negative rho) rho = rho).
Proof.
  split.
  - unfold ess_single_param, ess_single_param_clamped.
    destruct (autocorrelation x) as [rho|e] eqn:E; [|reflexivity].
    cbn [bind]. apply autocorrelation_length in E.
    unfold ess_of. rewrite <- E, firstn_min_length. reflexivity.
  - intros rho E. apply autocorrelation_length in E. split.
    + rewrite length_firstn. lia.
    + intros Hn. rewrite autocorrelate_negative_spec, Hn, <- E.
      split; [reflexivity|]. apply firstn_all2. lia.
Qed.

(** C2.  [effective_sample_size] raises the 2d [ValueError] on an array
    whose rank is not 2 and the two-samples [ValueError] on fewer than two
    rows; on [n_samples >= 2] rows of [n_params] columns it returns
    [n_params] values, the [i]-th being [ess_single_param] of column
    [i]. *)
Theorem effective_sample_size_spec (samples : ndarray F) :
  well_formed samples ->
  (ndim samples <> 2 ->
   effective_sample_size samples = Raise (ValueError Msg_samples_2d) /\
   fails_with (effective_sample_size samples) InvalidShapeError) /\
  (forall n_samples n_params rows,
     samples = Rank23 (Nd2 n_samples n_params rows) ->
     (n_samples < 2 ->
      effective_sample_size samples = Raise (ValueError Msg_two_samples) /\
      fails_with (effective_sample_size samples) InsufficientDataError) /\
     (2 <= n_samples ->
      exists ess,
        effective_sample_size samples = Ok ess /\
        length ess = n_params /\
        forall i, i < n_params ->
          ess_single_param (column (Fof_int 0) i rows) =
          Ok (nth i ess (Fof_int 0)))).
Proof.
  intros Hwf. split.
  - intros Hrank.
    assert (E : effective_sample_size samples =
                Raise (ValueError Msg_samples_2d)).
    { destruct samples as [[m n rows|m n p blocks]|s]; simpl in *;
        try reflexivity. unfold ndim in Hrank. simpl in Hrank. lia. }
    split; [exact E|]. rewrite E. eexists. split; reflexivity.
  - intros n_samples n_params rows ->. simpl in Hwf.
    destruct Hwf as [Hlen _]. split.
    + intros Hn. simpl.
      destruct (Nat.ltb_spec n_samples 2); [|lia].
      split; [reflexivity|]. eexists. split; reflexivity.
    + intros Hn. simpl.
      destruct (Nat.ltb_spec n_samples 2); [lia|].
      destruct (comprehension_returns
                  (fun i => ess_single_param (column (Fof_int 0) i rows))
                  (seq 0 n_params)) as [v [Hv Hall]].
      { intros i _. apply ess_single_param_returns.
        intros E. apply (f_equal (@length F)) in E.
        unfold column in E. rewrite length_map in E. simpl in E. lia. }
      exists v. split; [exact Hv|].
      apply Forall2_nth with (da := 0) (db := Fof_int 0) in Hall.
      destruct Hall as [Hl Hi]. rewrite length_seq in Hl, Hi.
      split; [exact Hl|].
      intros i Hlt. specialize (Hi i Hlt).
      rewrite seq_nth in Hi by assumption. exact Hi.
Qed.

(** [autocorrelation] has no error for a sequence with an entry: it
    returns as many lags as the sequence has entries. *)
Lemma autocorrelation_of_repeat (c : F) (n : nat) :
  1 <= n ->
  exists rho, autocorrelation (repeat c n) = Ok rho /\ length rho = n.
Proof.
  intros Hn.
  destruct (autocorrelation_returns (x := repeat c n)) as [rho [H1 H2]].
  - destruct n; [lia|discriminate].
  - exists rho. rewrite repeat_length in H2. auto.
Qed.

End EffectiveSampleSize.

(* ================================================================= *)
(** ** Reductions along an axis, column by column *)

Section AxisReductions.

Context {F : Type} {NF : Numeric F}.

Lemma nth_map_in {A B : Type} (f : A -> B) (l : list A) (j : nat) da db :
  j < length l -> nth j (map f l) db = f (nth j l da).
Proof.
  intros Hj. rewrite nth_indep with (d' := f da)
    by (rewrite length_map; assumption).
  apply map_nth.
Qed.

Lemma column_length (d : F) (j : nat) (rows : list (list F)) :
  length (column d j rows) = length rows.
Proof. unfold column. apply length_map. Qed.

Lemma fold_zip_length (p : nat) (t : list (list F)) (r : list F) :
  length r = p -> Forall (fun r => length r = p) t ->
  length (fold_left (zip_with Fadd) t r) = p.
Proof.
  revert r; induction t as [|a t IH]; intros r Hr Ht; simpl; [assumption|].
  inversion Ht; subst. apply IH; [|assumption].
  rewrite zip_with_length. lia.
Qed.

Lemma fold_zip_nth (p : nat) (t : list (list F)) (r : list F) (j : nat) d :
  length r = p -> Forall (fun r => length r = p) t -> j < p ->
  nth j (fold_left (zip_with Fadd) t r) d =
  fold_left Fadd (map (fun r => nth j r d) t) (nth j r d).
Proof.
  revert r; induction t as [|a t IH]; intros r Hr Ht Hj; simpl;
    [reflexivity|].
  inversion Ht; subst. rewrite IH; try assumption.
  - f_equal. apply zip_with_nth; lia.
  - rewrite zip_with_length. lia.
Qed.

Lemma sum_axis0_length (n p : nat) (rows : list (list F)) :
  rect2 n p rows -> length (sum_axis0 p rows) = p.
Proof.
  intros [_ H]. destruct rows as [|r t]; simpl.
  - apply repeat_length.
  - inversion H; subst. apply fold_zip_length; auto.
Qed.

Lemma sum_axis0_nth (n p : nat) (rows : list (list F)) (j : nat) d :
  rect2 n p rows -> j < p ->
  nth j (sum_axis0 p rows) d = np_sum (column d j rows).
Proof.
  intros [_ H] Hj. destruct rows as [|r t]; simpl.
  - apply nth_repeat_lt. assumption.
  - inversion H; subst. apply fold_zip_nth with (p := length r); auto.
Qed.

Lemma mean_axis0_length (n p : nat) (rows : list (list F)) :
  rect2 n p rows -> length (mean_axis0 p rows) = p.
Proof.
  intros H. unfold mean_axis0. rewrite length_map.
  apply sum_axis0_length with (n := n). assumption.
Qed.

Lemma mean_axis0_nth (n p : nat) (rows : list (list F)) (j : nat) d :
  rect2 n p rows -> j < p ->
  nth j (mean_axis0 p rows) d = np_mean (column d j rows).
Proof.
  intros H Hj. unfold mean_axis0, np_mean.
  rewrite nth_map_in with (da := d)
    by (rewrite (sum_axis0_length H); assumption).
  rewrite (sum_axis0_nth d H Hj), column_length. reflexivity.
Qed.

Lemma rect2_map {n p : nat} (f : list F -> list F) (rows : list (list F)) :
  rect2 n p rows ->
  (forall r, length r = p -> length (f r) = p) ->
  rect2 n p (map f rows).
Proof.
  intros [H1 H2] Hf. split; [rewrite length_map; assumption|].
  apply Forall_map. eapply Forall_impl; [|exact H2]. exact Hf.
Qed.

Lemma column_map (d : F) (j : nat) (f : list F -> list F) (g : F -> F)
    (rows : list (list F)) :
  Forall (fun r => nth j (f r) d = g (nth j r d)) rows ->
  column d j (map f rows) = map g (column d j rows).
Proof.
  unfold column. intros H. rewrite !map_map.
  induction H as [|r t Hr _ IH]; simpl; [reflexivity|].
  rewrite Hr, IH. reflexivity.
Qed.

Lemma var_axis0_length (ddof n p : nat) (rows : list (list F)) :
  rect2 n p rows -> length (var_axis0 ddof p rows) = p.
Proof.
  intros H. unfold var_axis0. rewrite length_map.
  apply sum_axis0_length with (n := n).
  apply rect2_map; [|intros r Hr; rewrite length_map; exact Hr].
  apply rect2_map; [assumption|].
  intros r Hr. rewrite zip_with_length, (mean_axis0_length H). lia.
Qed.

Lemma var_axis0_nth (ddof n p : nat) (rows : list (list F)) (j : nat) d :
  rect2 n p rows -> j < p ->
  nth j (var_axis0 ddof p rows) d = np_var ddof (column d j rows).
Proof.
  intros H Hj. unfold var_axis0, np_var.
  assert (Hd : rect2 n p (map (fun r => zip_with Fsub r (mean_axis0 p rows))
                              rows)).
  { apply rect2_map; [assumption|].
    intros r Hr. rewrite zip_with_length, (mean_axis0_length H). lia. }
  assert (Hs : rect2 n p
                 (map (map (fun y => Fmul y y))
                    (map (fun r => zip_with Fsub r (mean_axis0 p rows))
                         rows))).
  { apply rect2_map; [assumption|]. intros r Hr. rewrite length_map. exact Hr. }
  rewrite nth_map_in with (da := d)
    by (rewrite (sum_axis0_length Hs); assumption).
  rewrite (sum_axis0_nth d Hs Hj), column_length. f_equal. f_equal.
  rewrite column_map with (g := fun y => Fmul y y).
  - f_equal. rewrite column_map
      with (g := fun x => Fsub x (np_mean (column d j rows)));
      [reflexivity|].
    destruct H as [_ H]. eapply Forall_impl; [|exact H].
    intros r Hr. cbv beta in *.
    rewrite zip_with_nth with (da := d) (db := d).
    + rewrite (mean_axis0_nth d (conj eq_refl H) Hj). reflexivity.
    + lia.
    + rewrite (mean_axis0_length (conj eq_refl H)). assumption.
  - destruct Hd as [_ Hd]. eapply Forall_impl; [|exact Hd].
    intros r Hr. cbv beta in *.
    rewrite nth_map_in with (da := d) by lia. reflexivity.
Qed.

(** A reduction along axis 0 is the reduction of every column. *)
Lemma mean_axis0_columns (n p : nat) (rows : list (list F)) d :
  rect2 n p rows ->
  mean_axis0 p rows = map (fun j => np_mean (column d j rows)) (seq 0 p).
Proof.
  intros H. rewrite (list_as_map_seq d (mean_axis0 p rows)).
  rewrite (mean_axis0_length H). apply map_ext_in.
  intros j Hj. apply in_seq in Hj. apply mean_axis0_nth with (n := n);
    [assumption|lia].
Qed.

Lemma var_axis0_columns (ddof n p : nat) (rows : list (list F)) d :
  rect2 n p rows ->
  var_axis0 ddof p rows =
  map (fun j => np_var ddof (column d j rows)) (seq 0 p).
Proof.
  intros H. rewrite (list_as_map_seq d (var_axis0 ddof p rows)).
  rewrite (var_axis0_length ddof H). apply map_ext_in.
  intros j Hj. apply in_seq in Hj. apply var_axis0_nth with (n := n);
    [assumption|lia].
Qed.

End AxisReductions.

(* ================================================================= *)
(** ** [rhat]: validation, warm-up and splitting *)

Section RhatSteps.

Context {F : Type} {NF : Numeric F}.

Lemma ndim_rank23 (c : chains_array F) :
  ndim (Rank23 c) = 2 \/ ndim (Rank23 c) = 3.
Proof. destruct c; [left|right]; reflexivity. Qed.

(** On an array of rank 2 or 3 the first test of [rhat] passes. *)
Lemma rhat_rank23 (c : chains_array F) (warm_up : F) :
  rhat (Rank23 c) warm_up =
  if shape0 (Rank23 c) <? 2
  then Raise (ValueError (Msg_num_chains (shape0 (Rank23 c))))
  else if Fltb (Fof_int 1) warm_up || Fltb warm_up (Fof_int 0)
  then Raise (ValueError (Msg_warm_up warm_up))
  else rhat_checked c warm_up.
Proof. destruct c; reflexivity. Qed.

Lemma rhat_valid (c : chains_array F) (warm_up : F) :
  2 <= shape0 (Rank23 c) ->
  Fltb (Fof_int 1) warm_up = false ->
  Fltb warm_up (Fof_int 0) = false ->
  rhat (Rank23 c) warm_up = rhat_checked c warm_up.
Proof.
  intros Hm H1 H0. rewrite rhat_rank23, H1, H0.
  destruct (Nat.ltb_spec (shape0 (Rank23 c)) 2); [lia|reflexivity].
Qed.

Lemma slice_bound_nonneg (len k : nat) :
  slice_bound len (Z.of_nat k) = Nat.min k len.
Proof.
  unfold slice_bound.
  destruct (Z.ltb_spec (Z.of_nat k) 0); [lia|].
  rewrite Nat2Z.id. reflexivity.
Qed.

Lemma drop_samples_nonneg (k : nat) (c : chains_array F) :
  drop_samples (Z.of_nat k) c =
  match c with
  | Nd2 m n rows => Nd2 m (n - k) (trim_warmup k rows)
  | Nd3 m n p blocks => Nd3 m (n - k) p (trim_warmup k blocks)
  end.
Proof.
  destruct c as [m n rows|m n p blocks]; simpl;
    rewrite slice_bound_nonneg; unfold trim_warmup; f_equal; try lia;
    apply map_ext; intros; apply slice_from_nonneg.
Qed.

Lemma split_halves_pseudo_chains (n' : nat) (c : chains_array F) :
  0 < n' -> n' <= shape1 (Rank23 c) ->
  split_halves n' c =
  match c with
  | Nd2 m _ rows => Nd2 (m + m) n' (pseudo_chains n' rows)
  | Nd3 m _ p blocks => Nd3 (m + m) n' p (pseudo_chains n' blocks)
  end.
Proof.
  intros H0 Hle.
  destruct c as [m n rows|m n p blocks]; unfold shape1 in Hle;
    simpl in *; rewrite slice_bound_nonneg, Nat.min_l by assumption;
    unfold pseudo_chains; f_equal; f_equal; apply map_ext; intros;
    (apply slice_to_nonneg || (apply slice_from_last; assumption)).
Qed.

(** The array after warm-up and splitting has [2m] chains of length
    [n']. *)
Lemma pseudo_chains_rect {A : Type} (m n k n' : nat)
    (chains : list (list A)) :
  length chains = m -> Forall (fun c => length c = n) chains ->
  n' <= (n - k) / 2 ->
  length (pseudo_chains n' (trim_warmup k chains)) = m + m /\
  Forall (fun c => length c = n')
         (pseudo_chains n' (trim_warmup k chains)).
Proof.
  intros Hm Hn Hle.
  assert (Hhalf : (n - k) / 2 <= n - k) by (apply Nat.Div0.div_le_upper_bound; lia).
  unfold pseudo_chains, trim_warmup. split.
  - rewrite length_app, !length_map. lia.
  - apply Forall_app. split; rewrite !Forall_map;
      (eapply Forall_impl; [|exact Hn]); intros c Hc; cbv beta in *.
    + rewrite length_firstn, length_skipn. lia.
    + rewrite !length_skipn. lia.
Qed.

End RhatSteps.

(* ================================================================= *)
(** ** [rhat]: the validation errors *)

Section RhatValidation.

Context {F : Type} {NF : Numeric F}.

Lemma rhat_bad_rank (chains : ndarray F) (warm_up : F) :
  ndim chains <> 2 -> ndim chains <> 3 ->
  rhat chains warm_up = Raise (ValueError (Msg_dimension (ndim chains))).
Proof.
  intros H2 H3. unfold rhat.
  destruct (Nat.eqb_spec (ndim chains) 2); [contradiction|].
  destruct (Nat.eqb_spec (ndim chains) 3); [contradiction|].
  reflexivity.
Qed.

Lemma rhat_good_rank (chains : ndarray F) (warm_up : F) :
  ndim chains = 2 \/ ndim chains = 3 ->
  rhat chains warm_up =
  if shape0 chains <? 2
  then Raise (ValueError (Msg_num_chains (shape0 chains)))
  else if Fltb (Fof_int 1) warm_up || Fltb warm_up (Fof_int 0)
  then Raise (ValueError (Msg_warm_up warm_up))
  else match chains with
       | Rank23 c => rhat_checked c warm_up
       | NdOther _ => Raise (ValueError (Msg_dimension (ndim chains)))
       end.
Proof.
  intros H. unfold rhat.
  replace ((ndim chains =? 2) || (ndim chains =? 3)) with true;
    [reflexivity|].
  symmetry. apply orb_true_iff.
  destruct H as [H|H]; [left|right]; apply Nat.eqb_eq; assumption.
Qed.

(** C7.  [rhat] raises the dimension [ValueError] when the rank is neither
    2 nor 3, the number-of-chains [ValueError] when there are fewer than
    two chains, and the warm-up [ValueError] when [warm_up > 1] or
    [warm_up < 0]; whenever one of the three tests fails, the outcome is
    fixed by the shape and [warm_up] alone, whatever the entries are. *)
Theorem rhat_validation (chains : ndarray F) (warm_up : F) :
  (ndim chains <> 2 -> ndim chains <> 3 ->
   rhat chains warm_up = Raise (ValueError (Msg_dimension (ndim chains))) /\
   fails_with (rhat chains warm_up) InvalidShapeError) /\
  (ndim chains = 2 \/ ndim chains = 3 -> shape0 chains < 2 ->
   rhat chains warm_up = Raise (ValueError (Msg_num_chains (shape0 chains)))
   /\ fails_with (rhat chains warm_up) InsufficientChainsError) /\
  (ndim chains = 2 \/ ndim chains = 3 -> 2 <= shape0 chains ->
   Fltb (Fof_int 1) warm_up = true \/ Fltb warm_up (Fof_int 0) = true ->
   rhat chains warm_up = Raise (ValueError (Msg_warm_up warm_up)) /\
   fails_with (rhat chains warm_up) InvalidParameterError) /\
  (forall chains' : ndarray F,
     shape chains' = shape chains ->
     passes_validation (shape chains) warm_up = false ->
     rhat chains' warm_up = rhat chains warm_up).
Proof.
  split; [|split; [|split]].
  - intros H2 H3. rewrite rhat_bad_rank by assumption.
    split; [reflexivity|]. eexists. split; reflexivity.
  - intros Hr Hm. rewrite rhat_good_rank by assumption.
    destruct (Nat.ltb_spec (shape0 chains) 2); [|lia].
    split; [reflexivity|]. eexists. split; reflexivity.
  - intros Hr Hm Hw. rewrite rhat_good_rank by assumption.
    destruct (Nat.ltb_spec (shape0 chains) 2); [lia|].
    replace (Fltb (Fof_int 1) warm_up || Fltb warm_up (Fof_int 0)) with true
      by (symmetry; apply orb_true_iff; assumption).
    split; [reflexivity|]. eexists. split; reflexivity.
  - intros chains' Hs Hv.
    assert (Hd : ndim chains' = ndim chains) by (unfold ndim; congruence).
    assert (H0 : shape0 chains' = shape0 chains)
      by (unfold shape0; congruence).
    unfold passes_validation in Hv. fold (ndim chains) in Hv.
    fold (shape0 chains) in Hv.
    destruct ((ndim chains =? 2) || (ndim chains =? 3)) eqn:Er.
    + assert (Hr : ndim chains = 2 \/ ndim chains = 3).
      { apply orb_true_iff in Er.
        destruct Er as [E|E]; [left|right]; apply Nat.eqb_eq; exact E. }
      rewrite (rhat_good_rank chains warm_up Hr).
      rewrite (rhat_good_rank chains' warm_up) by (rewrite Hd; exact Hr).
      rewrite H0.
      destruct (Nat.ltb_spec (shape0 chains) 2) as [Hlt|Hge];
        [reflexivity|].
      destruct (Nat.leb_spec 2 (shape0 chains)); [|lia].
      simpl in Hv.
      destruct (Fltb (Fof_int 1) warm_up); [reflexivity|].
      destruct (Fltb warm_up (Fof_int 0)); [reflexivity|discriminate].
    + apply orb_false_iff in Er. destruct Er as [E2 E3].
      apply Nat.eqb_neq in E2, E3.
      rewrite (rhat_bad_rank chains warm_up E2 E3).
      rewrite (rhat_bad_rank chains' warm_up) by (rewrite Hd; assumption).
      rewrite Hd. reflexivity.
Qed.

End RhatValidation.

(* ================================================================= *)
(** ** [rhat]: the value *)

Section RhatValue.

Context {F : Type} {NF : Numeric F}.

Lemma np_var_unbiased (l : list F) : np_var 1 l = unbiased_variance l.
Proof. unfold np_var, unbiased_variance. rewrite map_map. reflexivity. Qed.

Lemma zip_with_map {A : Type} (f : F -> F -> F) (g h : A -> F) (l : list A) :
  zip_with f (map g l) (map h l) = map (fun x => f (g x) (h x)) l.
Proof. induction l as [|a t IH]; simpl; [reflexivity|]. rewrite IH. reflexivity. Qed.

Lemma within_Nd2 (m n : nat) (rows : list (list F)) :
  _within (Nd2 m n rows) = Scalar (within_variance rows).
Proof.
  unfold _within, within_variance. do 2 f_equal.
  apply map_ext. exact np_var_unbiased.
Qed.

Lemma between_Nd2 (m n : nat) (rows : list (list F)) :
  _between (Nd2 m n rows) = Scalar (between_variance n rows).
Proof.
  unfold _between, between_variance. rewrite np_var_unbiased. reflexivity.
Qed.

Lemma parameter_length (j : nat) (blocks : list (list (list F))) :
  length (parameter j blocks) = length blocks.
Proof. unfold parameter. apply length_map. Qed.

Lemma within_Nd3 (m n p : nat) (blocks : list (list (list F))) :
  rect3 m n p blocks ->
  _within (Nd3 m n p blocks) =
  Vector (map (fun j => within_variance (parameter j blocks)) (seq 0 p)).
Proof.
  intros [Hm Hb]. unfold _within. f_equal.
  assert (Hv : rect2 m p (map (var_axis0 1 p) blocks)).
  { split; [rewrite length_map; assumption|].
    apply Forall_map. eapply Forall_impl; [|exact Hb].
    intros b Hrect. apply var_axis0_length with (n := n). assumption. }
  rewrite (mean_axis0_columns (Fof_int 0) Hv).
  apply map_ext_in. intros j Hj. apply in_seq in Hj.
  unfold within_variance. f_equal.
  unfold column at 1, parameter. rewrite !map_map.
  apply map_ext_in. intros b Hin.
  rewrite Forall_forall in Hb. specialize (Hb b Hin).
  rewrite (var_axis0_nth 1 (Fof_int 0) Hb) by lia.
  apply np_var_unbiased.
Qed.

Lemma between_Nd3 (m n p : nat) (blocks : list (list (list F))) :
  rect3 m n p blocks ->
  _between (Nd3 m n p blocks) =
  Vector (map (fun j => between_variance n (parameter j blocks)) (seq 0 p)).
Proof.
  intros [Hm Hb]. unfold _between. f_equal.
  assert (Hv : rect2 m p (map (mean_axis0 p) blocks)).
  { split; [rewrite length_map; assumption|].
    apply Forall_map. eapply Forall_impl; [|exact Hb].
    intros b Hrect. apply mean_axis0_length with (n := n). assumption. }
  rewrite (var_axis0_columns 1 (Fof_int 0) Hv). rewrite map_map.
  apply map_ext_in. intros j Hj. apply in_seq in Hj.
  unfold between_variance. unfold shape1. simpl. f_equal.
  rewrite np_var_unbiased. f_equal.
  unfold column at 1, parameter. rewrite !map_map.
  apply map_ext_in. intros b Hin.
  rewrite Forall_forall in Hb. specialize (Hb b Hin).
  apply (mean_axis0_nth (Fof_int 0) Hb). lia.
Qed.

Lemma of_nat_pred (n : nat) :
  1 <= n -> Fof_int (Z.of_nat n - 1) = of_nat (n - 1).
Proof. intros Hn. unfold of_nat. f_equal. lia. Qed.

Lemma rhat_combine_scalar (n : nat) (w b : F) :
  1 <= n ->
  except_ZeroDivisionError (rhat_combine n (Scalar w) (Scalar b)) =
  Ok (Scalar (Fsqrt (Fadd (Fdiv (of_nat (n - 1)) (of_nat n))
                          (Fdiv b (Fmul w (of_nat n)))))).
Proof.
  intros Hn. unfold rhat_combine, int_truediv.
  destruct (Z.eqb_spec (Z.of_nat n) 0); [lia|].
  rewrite of_nat_pred by assumption. reflexivity.
Qed.

Lemma rhat_combine_vector {A : Type} (n : nat) (w b : A -> F) (l : list A) :
  1 <= n ->
  except_ZeroDivisionError
    (rhat_combine n (Vector (map w l)) (Vector (map b l))) =
  Ok (Vector (map (fun j => Fsqrt (Fadd (Fdiv (of_nat (n - 1)) (of_nat n))
                                        (Fdiv (b j) (Fmul (w j) (of_nat n)))))
                  l)).
Proof.
  intros Hn. unfold rhat_combine, int_truediv.
  destruct (Z.eqb_spec (Z.of_nat n) 0); [lia|].
  rewrite of_nat_pred by assumption. cbn [bind vmap vmap2].
  unfold except_ZeroDivisionError. do 2 f_equal.
  rewrite (map_map w), zip_with_map, !map_map. reflexivity.
Qed.

Lemma column_firstn (d : F) (j k : nat) (b : list (list F)) :
  column d j (firstn k b) = firstn k (column d j b).
Proof. unfold column. symmetry. apply firstn_map. Qed.

Lemma column_skipn (d : F) (j k : nat) (b : list (list F)) :
  column d j (skipn k b) = skipn k (column d j b).
Proof. unfold column. symmetry. apply skipn_map. Qed.

(** Taking the chains of one parameter commutes with trimming the
    warm-up and with splitting. *)
Lemma parameter_pseudo_chains (j k n' : nat) (blocks : list (list (list F))) :
  parameter j (pseudo_chains n' (trim_warmup k blocks)) =
  pseudo_chains n' (trim_warmup k (parameter j blocks)).
Proof.
  unfold parameter, pseudo_chains, trim_warmup.
  rewrite map_app, !map_map. f_equal; apply map_ext; intros b.
  - rewrite column_firstn, column_skipn. reflexivity.
  - rewrite !column_skipn, !length_skipn, column_length. reflexivity.
Qed.

Lemma Forall_firstn_skipn {A : Type} (P : A -> Prop) (k : nat) (l : list A) :
  Forall P l -> Forall P (firstn k l) /\ Forall P (skipn k l).
Proof.
  intros H. rewrite <- (firstn_skipn k l) in H.
  apply Forall_app in H. exact H.
Qed.

Lemma pseudo_chains_rect3 (m n p k n' : nat) (blocks : list (list (list F))) :
  rect3 m n p blocks -> n' <= (n - k) / 2 ->
  rect3 (m + m) n' p (pseudo_chains n' (trim_warmup k blocks)).
Proof.
  intros [Hm Hb] Hle.
  assert (Hn : Forall (fun b : list (list F) => length b = n) blocks).
  { eapply Forall_impl; [|exact Hb]. intros b [H _]. exact H. }
  destruct (pseudo_chains_rect k Hm Hn Hle) as [Hlen Hall].
  split; [exact Hlen|].
  rewrite Forall_forall in Hall |- *. intros b Hin.
  split; [apply Hall; assumption|].
  unfold pseudo_chains, trim_warmup in Hin.
  rewrite in_app_iff, !in_map_iff in Hin.
  destruct Hin as [[c [<- Hc]]|[c [<- Hc]]];
    apply in_map_iff in Hc; destruct Hc as [b0 [<- Hb0]];
    rewrite Forall_forall in Hb; destruct (Hb b0 Hb0) as [_ Hrows].
  - apply Forall_firstn_skipn. apply Forall_firstn_skipn. exact Hrows.
  - apply Forall_firstn_skipn. apply Forall_firstn_skipn. exact Hrows.
Qed.

End RhatValue.

Section RhatFormula.

Context {F : Type} {NF : Numeric F}.

(** [rhat_checked] when [int(n * warm_up)] is [k] and the length check
    passes. *)
Lemma rhat_checked_steps (c : chains_array F) (warm_up : F) (k : nat) :
  Fto_int (Fmul (of_nat (shape1 (Rank23 c))) warm_up) = IsInt (Z.of_nat k) ->
  2 <= (shape1 (Rank23 c) - k) / 2 ->
  rhat_checked c warm_up =
  let n' := (shape1 (Rank23 c) - k) / 2 in
  let split :=
    match c with
    | Nd2 m _ rows =>
        Nd2 (m + m) n' (pseudo_chains n' (trim_warmup k rows))
    | Nd3 m _ p blocks =>
        Nd3 (m + m) n' p (pseudo_chains n' (trim_warmup k blocks))
    end in
  except_ZeroDivisionError (rhat_combine n' (_within split) (_between split)).
Proof.
  intros Hk Hn. unfold rhat_checked, py_int. rewrite Hk. cbn [bind].
  rewrite drop_samples_nonneg.
  assert (Hs : shape1 (Rank23 match c with
                              | Nd2 m n rows => Nd2 m (n - k) (trim_warmup k rows)
                              | Nd3 m n p blocks =>
                                  Nd3 m (n - k) p (trim_warmup k blocks)
                              end) = shape1 (Rank23 c) - k)
    by (destruct c; reflexivity).
  rewrite Hs.
  destruct (Nat.ltb_spec ((shape1 (Rank23 c) - k) / 2) 2); [lia|].
  rewrite split_halves_pseudo_chains.
  - destruct c; reflexivity.
  - lia.
  - rewrite Hs. apply Nat.Div0.div_le_upper_bound. lia.
Qed.

(** C1.  For chains of rank 2 or 3 with at least two chains, a [warm_up]
    that passes the tests, [k = int(n * warm_up)] and [n' = (n - k) // 2]
    at least 2, [rhat] returns [sqrt((n' - 1) / n' + B / (W * n'))] over
    the [2m] pseudo-chains of length [n']: one number for rank 2, and for
    rank 3 the vector of the [p] numbers obtained from the chains of each
    parameter. *)
Theorem rhat_split_formula (c : chains_array F) (warm_up : F) (k : nat) :
  well_formed_chains c ->
  2 <= shape0 (Rank23 c) ->
  Fltb (Fof_int 1) warm_up = false ->
  Fltb warm_up (Fof_int 0) = false ->
  Fto_int (Fmul (of_nat (shape1 (Rank23 c))) warm_up) = IsInt (Z.of_nat k) ->
  2 <= (shape1 (Rank23 c) - k) / 2 ->
  match c with
  | Nd2 m n rows =>
      let n' := (n - k) / 2 in
      rhat (Rank23 c) warm_up = Ok (Scalar (rhat_of_parameter k n' rows)) /\
      rect2 (m + m) n' (pseudo_chains n' (trim_warmup k rows))
  | Nd3 m n p blocks =>
      let n' := (n - k) / 2 in
      let v := map (fun j => rhat_of_parameter k n' (parameter j blocks))
                   (seq 0 p) in
      rhat (Rank23 c) warm_up = Ok (Vector v) /\
      length v = p /\
      forall j, rect2 (m + m) n'
                  (pseudo_chains n' (trim_warmup k (parameter j blocks)))
  end.
Proof.
  intros Hwf Hm H1 H0 Hk Hn.
  rewrite rhat_valid by assumption.
  rewrite (@rhat_checked_steps c warm_up k Hk Hn).
  destruct c as [m n rows|m n p blocks]; unfold shape1 in *;
    cbn [shape nth] in *; cbv zeta.
  - destruct Hwf as [Hlen Hrows]. split.
    + rewrite within_Nd2, between_Nd2.
      rewrite rhat_combine_scalar by lia. reflexivity.
    + apply (pseudo_chains_rect k Hlen Hrows). lia.
  - assert (Hrect := pseudo_chains_rect3 k Hwf (Nat.le_refl ((n - k) / 2))).
    split; [|split].
    + rewrite (within_Nd3 Hrect), (between_Nd3 Hrect).
      rewrite rhat_combine_vector by lia. do 2 f_equal.
      apply map_ext. intros j. unfold rhat_of_parameter, rhat_formula.
      rewrite parameter_pseudo_chains. reflexivity.
    + rewrite length_map, length_seq. reflexivity.
    + intros j. destruct Hwf as [Hlen Hb].
      apply (pseudo_chains_rect (n := n) k (chains := parameter j blocks)).
      * rewrite parameter_length. exact Hlen.
      * unfold parameter. apply Forall_map.
        eapply Forall_impl; [|exact Hb].
        intros b [Hbl _]. rewrite column_length. exact Hbl.
      * lia.
Qed.

End RhatFormula.

(* ================================================================= *)
(** ** [rhat]: warm-up and the length check, in exact arithmetic *)

Lemma rhat_combine_returns {F : Type} {NF : Numeric F} (n : nat)
    (w b : value F) :
  1 <= n ->
  exists v, except_ZeroDivisionError (rhat_combine n w b) = Ok v.
Proof.
  intros Hn. unfold rhat_combine, int_truediv.
  destruct (Z.eqb_spec (Z.of_nat n) 0); [lia|].
  cbn [bind except_ZeroDivisionError]. eauto.
Qed.

Lemma Int_part_nonneg (r : R) : (0 <= r)%R -> (0 <= Int_part r)%Z.
Proof.
  intros Hr. destruct (base_Int_part r) as [_ H].
  apply le_IZR. apply Rnot_lt_le. intros Hlt.
  assert (IZR (Int_part r) <= -1)%R.
  { replace (-1)%R with (IZR (-1)) by reflexivity. apply IZR_le.
    apply lt_IZR in Hlt. lia. }
  lra.
Qed.

Lemma Rtrunc_nonneg (r : R) : (0 <= r)%R -> Rtrunc r = Int_part r.
Proof.
  intros Hr. unfold Rtrunc. destruct (Rlt_dec r 0); [lra|reflexivity].
Qed.

Lemma Int_part_IZR (z : Z) : Int_part (IZR z) = z.
Proof. symmetry. apply Int_part_spec. lra. Qed.


Lemma py_int_warm_up (n : nat) (warm_up : R) :
  (0 <= warm_up)%R ->
  Fto_int (Fmul (of_nat n) warm_up) =
  IsInt (Z.of_nat (warm_up_samples n warm_up)).
Proof.
  intros Hw. cbn [Fto_int Fmul exact]. unfold of_nat. cbn [Fof_int exact].
  assert (Hr : (0 <= IZR (Z.of_nat n) * warm_up)%R).
  { apply Rmult_le_pos; [|assumption]. apply IZR_le. lia. }
  rewrite Rtrunc_nonneg by assumption.
  unfold warm_up_samples. rewrite Z2Nat.id; [reflexivity|].
  apply Int_part_nonneg. assumption.
Qed.

(* ================================================================= *)
(** ** [rhat]: warm-up and the length check, in the code's arithmetic *)

Section RhatLengthCheck.

Context {F : Type} {NF : Numeric F}.


End RhatLengthCheck.




(* ================================================================= *)
(** ** Autocorrelation in exact arithmetic *)

Section ExactAutocorrelation.

Local Open Scope R_scope.

Lemma fold_left_Rplus (l : list R) (a : R) :
  fold_left Rplus l a = a + fold_right Rplus 0 l.
Proof.
  revert a; induction l as [|b t IH]; intros a; simpl; [lra|].
  rewrite IH. lra.
Qed.

Lemma np_sum_exact (l : list R) : np_sum l = fold_right Rplus 0 l.
Proof.
  destruct l as [|a t]; simpl; [reflexivity|]. apply fold_left_Rplus.
Qed.

Lemma sum_squares_nonneg (l : list R) :
  0 <= fold_right Rplus 0 (map (fun d => d * d) l).
Proof.
  induction l as [|a t IH]; simpl; [lra|]. nra.
Qed.

Lemma sum_scaled_squares (s : R) (l : list R) :
  s <> 0 ->
  fold_right Rplus 0 (map (fun d => d / s * (d / s)) l) =
  fold_right Rplus 0 (map (fun d => d * d) l) / (s * s).
Proof.
  intros Hs. induction l as [|a t IH]; simpl.
  - field. assumption.
  - rewrite IH. field. assumption.
Qed.

Lemma zip_with_self {A B : Type} (f : A -> A -> B) (l : list A) :
  zip_with f l l = map (fun a => f a a) l.
Proof. induction l as [|a t IH]; simpl; [reflexivity|]. rewrite IH. reflexivity. Qed.

(** The sum of the squared deviations from the mean. *)
Lemma np_var_exact (x : list R) :
  np_var 0 x =
  fold_right Rplus 0 (map (fun d => d * d) (map (fun xi => xi - np_mean x) x))
  / INR (length x).
Proof.
  unfold np_var. rewrite np_sum_exact, Nat.sub_0_r.
  unfold of_nat. cbn [Fof_int Fdiv Fmul Fsub exact].
  rewrite <- INR_IZR_INZ. reflexivity.
Qed.

(** The lag-0 product of the scaled sequence with itself. *)
Lemma scaled_dot_self (x : list R) :
  (1 <= length x)%nat -> np_var 0 x <> 0 ->
  dot (scaled x) (scaled x) = 1.
Proof.
  intros Hn Hv.
  set (D := map (fun xi => xi - np_mean x) x).
  set (S := fold_right Rplus 0 (map (fun d => d * d) D)).
  assert (HV : np_var 0 x = S / INR (length x)) by apply np_var_exact.
  assert (Hpos : 0 < INR (length x)) by (apply lt_0_INR; lia).
  assert (HS0 : 0 <= S) by apply sum_squares_nonneg.
  assert (HSne : S <> 0).
  { intros E. apply Hv. rewrite HV, E. field. lra. }
  assert (HVpos : 0 <= np_var 0 x).
  { rewrite HV. apply Rmult_le_pos; [assumption|].
    left. apply Rinv_0_lt_compat. assumption. }
  set (s := np_std x * sqrt (INR (length x))).
  assert (Hss : s * s = S).
  { unfold s, np_std. cbn [Fsqrt exact].
    replace (sqrt (np_var 0 x) * sqrt (INR (length x)) *
             (sqrt (np_var 0 x) * sqrt (INR (length x))))
      with (sqrt (np_var 0 x) * sqrt (np_var 0 x) *
            (sqrt (INR (length x)) * sqrt (INR (length x)))) by ring.
    rewrite !sqrt_sqrt by lra. rewrite HV. field. lra. }
  assert (Hs : s <> 0).
  { intros E. apply HSne. rewrite <- Hss, E. ring. }
  unfold dot. rewrite np_sum_exact, zip_with_self.
  unfold scaled. rewrite map_map.
  cbn [Fmul Fdiv Fsub Fsqrt exact]. unfold of_nat. cbn [Fof_int exact].
  rewrite <- INR_IZR_INZ. fold s.
  replace (map (fun xi => (xi - np_mean x) / s * ((xi - np_mean x) / s)) x)
    with (map (fun d => d / s * (d / s)) D)
    by (unfold D; rewrite map_map; reflexivity).
  rewrite sum_scaled_squares by assumption. fold S.
  rewrite Hss. field. assumption.
Qed.

Lemma zip_with_indices {A B C : Type} (f : A -> B -> C) (a : list A)
    (b : list B) (da : A) (db : B) :
  zip_with f a b =
  map (fun j => f (nth j a da) (nth j b db))
      (seq 0 (Nat.min (length a) (length b))).
Proof.
  revert b; induction a as [|x t IH]; intros [|y u]; simpl; try reflexivity.
  f_equal. rewrite IH. rewrite (map_seq_shift _ 1). reflexivity.
Qed.

(** The product of the sequence with itself shifted by [d] is the
    autocorrelation sum at lag [d]. *)
Lemma dot_skipn_lag_sum (z : list R) (d : nat) :
  dot (skipn d z) z = lag_sum z d.
Proof.
  unfold dot, lag_sum, sum_upto. rewrite np_sum_exact.
  rewrite (zip_with_indices _ _ _ 0 0), length_skipn.
  replace (Nat.min (length z - d) (length z)) with (length z - d)%nat by lia.
  f_equal. apply map_ext. intros j. cbn [Fmul exact].
  rewrite nth_skipn. f_equal. f_equal. lia.
Qed.

(** C4.  In exact arithmetic, for a sequence of length [n >= 1] whose
    variance is not zero, [autocorrelation] returns the entries
    [n - 1 .. 2n - 2] of the full cross-correlation, of length [2n - 1],
    of the centred and scaled sequence with itself: [n] lags, the lag [d]
    being the sum of the products of the scaled entries [d] apart, and the
    first of which is 1. *)
Theorem autocorrelation_exact (x : list R) :
  (1 <= length x)%nat -> np_var 0 x <> 0 ->
  exists full rho : list R,
    np_correlate_full (scaled x) (scaled x) = Ok full /\
    length full = (2 * length x - 1)%nat /\
    autocorrelation x = Ok rho /\
    rho = map (fun i => nth i full 0) (seq (length x - 1)%nat (length x)) /\
    length rho = length x /\
    (forall d, (d < length x)%nat -> nth d rho 0 = lag_sum (scaled x) d) /\
    nth 0 rho 0 = 1.
Proof.
  intros Hn Hv.
  assert (Hx : x <> []) by (destruct x; [simpl in Hn; lia|discriminate]).
  assert (Hz : scaled x <> []).
  { intros E. apply (f_equal (@length R)) in E.
    rewrite scaled_length in E. simpl in E. lia. }
  pose proof (np_correlate_full_self Hz) as Hfull.
  rewrite scaled_length in Hfull.
  eexists. eexists. split; [exact Hfull|].
  split; [rewrite length_map, length_seq; lia|].
  split; [apply autocorrelation_lags; assumption|].
  split; [|split; [|split]].
  - symmetry. rewrite map_seq_shift.
    apply map_ext_in. intros d Hd. apply in_seq in Hd.
    rewrite nth_map_seq by lia.
    destruct (Nat.ltb_spec (0 + (length x - 1 + d))%nat (length x - 1)%nat);
      [lia|].
    f_equal. f_equal. lia.
  - rewrite length_map, length_seq. reflexivity.
  - intros d Hd. rewrite nth_map_seq by assumption.
    apply dot_skipn_lag_sum.
  - destruct (length x) as [|n] eqn:E; [lia|].
    cbn [seq map nth skipn]. rewrite <- E in Hn.
    apply scaled_dot_self; [lia|assumption].
Qed.

End ExactAutocorrelation.

(* ================================================================= *)
(** ** Degenerate inputs *)

Lemma np_sum_repeat_zero (n : nat) :
  fold_right Rplus 0%R (repeat 0%R n) = 0%R.
Proof. induction n as [|n IH]; simpl; [reflexivity|]. rewrite IH. lra. Qed.

Lemma sum_repeat (c : R) (n : nat) :
  fold_right Rplus 0%R (repeat c n) = (INR n * c)%R.
Proof.
  induction n as [|n IH]; [simpl; lra|].
  rewrite S_INR. simpl. rewrite IH. lra.
Qed.

Lemma map_repeat {A B : Type} (f : A -> B) (a : A) (n : nat) :
  map f (repeat a n) = repeat (f a) n.
Proof. induction n as [|n IH]; simpl; [reflexivity|]. rewrite IH. reflexivity. Qed.

(** In exact arithmetic a constant sequence has standard deviation 0. *)
Lemma np_std_constant (c : R) (n : nat) :
  1 <= n -> np_std (repeat c n) = 0%R.
Proof.
  intros Hn. unfold np_std. rewrite np_var_exact.
  assert (Hpos : (0 < INR n)%R) by (apply lt_0_INR; lia).
  assert (Hmean : np_mean (repeat c n) = c).
  { unfold np_mean. rewrite np_sum_exact, sum_repeat, repeat_length.
    unfold of_nat. cbn [Fdiv Fof_int exact]. rewrite <- INR_IZR_INZ.
    field. lra. }
  rewrite Hmean, !map_repeat, repeat_length.
  replace ((c - c) * (c - c))%R with 0%R by ring.
  rewrite np_sum_repeat_zero.
  cbn [Fsqrt exact]. unfold Rdiv. rewrite Rmult_0_l. apply sqrt_0.
Qed.

(** C5, as the code has it.  For a constant sequence of length [n >= 1],
    [autocorrelation] raises nothing: it returns [n] lags.  In exact
    arithmetic the number it divides by, [np.std(x) * np.sqrt(len(x))],
    is zero for such a sequence. *)
Theorem autocorrelation_constant_returns (n : nat) :
  1 <= n ->
  (forall (F : Type) (NF : Numeric F) (c : F),
     exists rho, autocorrelation (repeat c n) = Ok rho /\ length rho = n) /\
  (forall c : R,
     Fmul (np_std (repeat c n)) (Fsqrt (of_nat (length (repeat c n)))) = 0%R).
Proof.
  intros Hn. split.
  - intros F NF c. apply autocorrelation_of_repeat. assumption.
  - intros c. rewrite np_std_constant by assumption.
    cbn [Fmul exact]. apply Rmult_0_l.
Qed.

Lemma autocorrelation_constant_returns_witness :
  (exists rho, autocorrelation [1%float; 1%float] = Ok rho /\ length rho = 2)
  /\ Fmul (np_std [2%R; 2%R]) (Fsqrt (of_nat 2)) = 0%R.
Proof.
  split.
  - exact (proj1 (autocorrelation_constant_returns (n := 2) (le_S 1 1 (le_n 1)))
                 float float64 1%float).
  - exact (proj2 (autocorrelation_constant_returns (n := 2) (le_S 1 1 (le_n 1)))
                 2%R).
Defined.

(** The constant sequence [1.0, 1.0]: [autocorrelation] returns two NaNs
    and raises nothing. *)
Lemma autocorrelation_constant_nan :
  autocorrelation [1%float; 1%float] = Ok [nan; nan] /\
  ~ (exists e, autocorrelation [1%float; 1%float] = Raise e) /\
  ~ fails_with (autocorrelation [1%float; 1%float]) DegenerateInputError.
Proof.
  assert (E : autocorrelation [1%float; 1%float] = Ok [nan; nan])
    by (vm_compute; reflexivity).
  split; [exact E|]. rewrite E. split.
  - intros [e He]. discriminate.
  - intros [e [He _]]. discriminate.
Qed.

Section NoZeroDivision.

Context {F : Type} {NF : Numeric F}.

(** [rhat] raises no [ZeroDivisionError]: the [except] clause is never
    entered. *)
Lemma rhat_checked_no_ZeroDivisionError (c : chains_array F) (warm_up : F)
    (msg : message F) :
  rhat_checked c warm_up <> Raise (ZeroDivisionError msg).
Proof.
  unfold rhat_checked, py_int.
  destruct (Fto_int (Fmul (of_nat (shape1 (Rank23 c))) warm_up));
    cbn [bind]; try discriminate.
  match goal with |- context [?n <? 2] => destruct (Nat.ltb_spec n 2) as [H|H];
    [discriminate|] end.
  match goal with |- context [rhat_combine ?n ?w ?b] =>
    destruct (rhat_combine_returns w b (n := n)) as [v Hv]; [lia|] end.
  rewrite Hv. discriminate.
Qed.

Lemma rhat_no_ZeroDivisionError (chains : ndarray F) (warm_up : F)
    (msg : message F) :
  rhat chains warm_up <> Raise (ZeroDivisionError msg).
Proof.
  unfold rhat.
  destruct (negb _); [discriminate|].
  destruct (_ <? 2); [discriminate|].
  destruct (_ || _); [discriminate|].
  destruct chains; [apply rhat_checked_no_ZeroDivisionError|discriminate].
Qed.

Lemma rhat_never_degenerate (chains : ndarray F) (warm_up : F) :
  ~ fails_with (rhat chains warm_up) DegenerateVarianceError.
Proof.
  intros [e [He Ht]].
  destruct e as [m|m|m|m|o a]; try (destruct m; discriminate).
  - exact (rhat_no_ZeroDivisionError _ _ He).
  - discriminate.
Qed.

End NoZeroDivision.

(** C6.  Two chains [1.0, 1.0, 1.0, 1.0]: the mean within-chain variance
    of the four pseudo-chains is zero and [rhat] returns NaN; on no input
    does [rhat] raise the [ZeroDivisionError] of its [except] clause. *)
Theorem rhat_vanishing_within_variance :
  let chains := Nd2 2 4 [[1; 1; 1; 1]; [1; 1; 1; 1]]%float in
  well_formed_chains chains /\
  _within (split_halves 2 (drop_samples 0 chains)) = Scalar 0%float /\
  rhat (Rank23 chains) 0%float = Ok (Scalar nan) /\
  forall (F : Type) (NF : Numeric F) (c : ndarray F) (warm_up : F),
    ~ fails_with (rhat c warm_up) DegenerateVarianceError.
Proof.
  cbv zeta. split; [|split; [|split]].
  - split; [reflexivity|]. repeat constructor.
  - vm_compute. reflexivity.
  - vm_compute. reflexivity.
  - intros F NF c warm_up. apply rhat_never_degenerate.
Qed.

(* ================================================================= *)
(** ** The summary of the results aggregator *)

Section SummaryRhat.

Context {F : Type} {NF : Numeric F}.

Variable np_percentile : list (list F) -> list F -> list (list F).

Variable call_diagnostics :
  string -> list (matrix F) -> result F (list (cell F)).

Lemma rhat_all_params_missing : has_attribute "rhat_all_params" = false.
Proof. reflexivity. Qed.

(** With one chain the [rhat] column of the summary is ["NA"] for every
    parameter. *)
Lemma summary_rhat_one_chain (self : MCMCResults F) :
  summary_rhat call_diagnostics self 1 =
  Ok (repeat (Str "NA") (_num_params self)).
Proof. reflexivity. Qed.

(** C9.  With two or more chains, [make_summary] looks up
    [rhat_all_params] in [pints._diagnostics], which defines no such name:
    the lookup raises [AttributeError] and no summary is returned; [rhat]
    is never called. *)
Theorem make_summary_two_chains (self : MCMCResults F) :
  2 <= length (_chains self) ->
  summary_rhat call_diagnostics self (length (_chains self)) =
    Raise (AttributeError "pints._diagnostics" "rhat_all_params") /\
  (forall done, make_summary np_percentile call_diagnostics self <> Ok done) /\
  (_summary_list self = [] ->
   forall out, summary np_percentile call_diagnostics self <> Ok out).
Proof.
  intros Hn.
  assert (E : summary_rhat call_diagnostics self (length (_chains self)) =
              Raise (AttributeError "pints._diagnostics" "rhat_all_params")).
  { unfold summary_rhat. rewrite rhat_all_params_missing.
    destruct (Nat.ltb_spec 1 (length (_chains self))); [reflexivity|lia]. }
  assert (M : forall done,
             make_summary np_percentile call_diagnostics self <> Ok done).
  { intros done. unfold make_summary.
    destruct (np_vstack (_chains self)) as [stacked|e]; [|discriminate].
    cbn [bind].
    destruct (effective_sample_size (to_ndarray stacked)) as [ess|e];
      [|discriminate].
    cbn [bind]. rewrite E. discriminate. }
  split; [exact E|]. split; [exact M|].
  intros Hs out. unfold summary. rewrite Hs.
  destruct (make_summary np_percentile call_diagnostics self) as [done|e];
    [|discriminate].
  exfalso. exact (M done eq_refl).
Qed.

End SummaryRhat.

(* ================================================================= *)
(** ** Concrete runs *)

Lemma ess_single_param_clamped_eq_witness :
  ess_single_param [1; 1]%float = ess_single_param_clamped [1; 1]%float /\
  autocorrelate_negative [nan; nan]%float = 3.
Proof.
  pose (H := ess_single_param_clamped_eq (NF := float64) [1; 1]%float).
  split; [exact (proj1 H)|].
  exact (proj1 (proj2 (proj2 H [nan; nan]%float eq_refl) eq_refl)).
Defined.

Lemma effective_sample_size_spec_witness :
  exists ess,
    effective_sample_size
      (Rank23 (Nd2 4 2 [[1; 5]; [2; 3]; [4; 4]; [3; 6]]%float)) = Ok ess /\
    length ess = 2 /\
    forall i, i < 2 ->
      ess_single_param
        (column (Fof_int 0) i [[1; 5]; [2; 3]; [4; 4]; [3; 6]]%float) =
      Ok (nth i ess (Fof_int 0)).
Proof.
  refine (proj2 (proj2 (effective_sample_size_spec
                          (NF := float64)
                          (Rank23 (Nd2 4 2 [[1; 5]; [2; 3]; [4; 4]; [3; 6]]%float))
                          _)
                       4 2 _ eq_refl) _).
  - split; [reflexivity|]. repeat constructor.
  - repeat constructor.
Defined.

Lemma rhat_validation_witness :
  rhat (NdOther [4]) 0%float = Raise (ValueError (Msg_dimension 1)) /\
  rhat (Rank23 (Nd2 1 4 [[1; 2; 3; 4]]%float)) 0%float =
    Raise (ValueError (Msg_num_chains 1)) /\
  rhat (Rank23 (Nd2 2 4 [[1; 2; 3; 4]; [4; 3; 2; 1]]%float)) 2%float =
    Raise (ValueError (Msg_warm_up 2%float)).
Proof.
  split; [|split].
  - refine (proj1 (proj1 (rhat_validation (NF := float64) (NdOther [4]) 0%float)
                         _ _)); cbv; discriminate.
  - refine (proj1 (proj1 (proj2 (rhat_validation (NF := float64)
                             (Rank23 (Nd2 1 4 [[1; 2; 3; 4]]%float)) 0%float))
                         (or_introl eq_refl) _)).
    repeat constructor.
  - refine (proj1 (proj1 (proj2 (proj2 (rhat_validation (NF := float64)
                             (Rank23 (Nd2 2 4 [[1; 2; 3; 4]; [4; 3; 2; 1]]%float))
                             2%float)))
                         (or_introl eq_refl) _ (or_introl eq_refl))).
    repeat constructor.
Defined.

Lemma rhat_split_formula_witness :
  rhat (Rank23 (Nd2 2 4 [[1; 2; 3; 5]; [2; 1; 4; 4]]%float)) 0%float =
    Ok (Scalar (rhat_of_parameter 0 2 [[1; 2; 3; 5]; [2; 1; 4; 4]]%float)) /\
  rhat (Rank23 (Nd3 2 4 2 [[[1; 2]; [2; 2]; [3; 2]; [5; 2]];
                           [[2; 2]; [1; 2]; [4; 2]; [4; 3]]]%float)) 0%float =
    Ok (Vector
          [rhat_of_parameter 0 2 [[1; 2; 3; 5]; [2; 1; 4; 4]]%float;
           rhat_of_parameter 0 2 [[2; 2; 2; 2]; [2; 2; 2; 3]]%float]).
Proof.
  split.
  - refine (proj1 (@rhat_split_formula float float64
                     (Nd2 2 4 [[1; 2; 3; 5]; [2; 1; 4; 4]]%float)
                     0%float 0 _ _ eq_refl eq_refl eq_refl _)).
    + split; [reflexivity|]. repeat constructor.
    + repeat constructor.
    + repeat constructor.
  - refine (proj1 (@rhat_split_formula float float64
                     (Nd3 2 4 2 [[[1; 2]; [2; 2]; [3; 2]; [5; 2]];
                                 [[2; 2]; [1; 2]; [4; 2]; [4; 3]]]%float)
                     0%float 0 _ _ eq_refl eq_refl eq_refl _)).
    + split; [reflexivity|]. repeat constructor.
    + repeat constructor.
    + repeat constructor.
Defined.

Lemma example_variance : np_var 0 [0%R; 1%R] <> 0%R.
Proof.
  rewrite np_var_exact. unfold np_mean. rewrite np_sum_exact.
  unfold of_nat. cbn. lra.
Qed.

Lemma autocorrelation_exact_witness :
  exists full rho : list R,
    np_correlate_full (scaled [0%R; 1%R]) (scaled [0%R; 1%R]) = Ok full /\
    length full = 3 /\
    autocorrelation [0%R; 1%R] = Ok rho /\
    rho = map (fun i => nth i full 0%R) (seq 1 2) /\
    length rho = 2 /\
    (forall d, d < 2 -> nth d rho 0%R = lag_sum (scaled [0%R; 1%R]) d) /\
    nth 0 rho 0%R = 1%R.
Proof.
  exact (@autocorrelation_exact [0%R; 1%R] (le_S 1 1 (le_n 1))
           example_variance).
Defined.

Lemma make_summary_two_chains_witness :
  let c1 := Matrix 4 1 [[1]; [2]; [4]; [3]]%float in
  let c2 := Matrix 4 1 [[2]; [2]; [1]; [5]]%float in
  let self := Build_MCMCResults [c1; c2] 1 None ["param 1"%string] []
                None None None None None None None in
  let np_percentile := fun (_ : list (list float)) (q : list float) =>
                         map (fun _ => [0%float]) q in
  let call := fun (_ : string) (_ : list (matrix float)) =>
                Ok (F := float) (@nil (cell float)) in
  MCMCResults_init [c1; c2] None None = Ok self /\
  summary_rhat call self 2 =
    Raise (AttributeError "pints._diagnostics" "rhat_all_params") /\
  summary np_percentile call self =
    Raise (AttributeError "pints._diagnostics" "rhat_all_params").
Proof.
  intros c1 c2 self np_percentile call.
  split; [reflexivity|]. split.
  - refine (proj1 (@make_summary_two_chains float float64 np_percentile call
                     self _)).
    repeat constructor.
  - vm_compute. reflexivity.
Defined.

(* ================================================================= *)
(** ** Further properties of the truncation rule and of the ESS *)

Section TruncationRun.

Context {F : Type} {NF : Numeric F}.

Lemma firstn_leading_run (rho : list F) :
  Forall (fun a => Fltb a (Fof_int 0) = false) (firstn (leading_run rho) rho).
Proof.
  induction rho as [|a rest IH]; simpl; [constructor|].
  destruct (Fltb a (Fof_int 0)) eqn:Ha; simpl; [constructor|].
  constructor; assumption.
Qed.

(** No lag that enters the sum of [ess_single_param] is strictly
    negative. *)
Lemma truncated_lags_not_negative (rho : list F) :
  Forall (fun a => Fltb a (Fof_int 0) = false)
         (firstn (autocorrelate_negative rho) rho).
Proof.
  rewrite autocorrelate_negative_spec.
  destruct (has_negative rho) eqn:E.
  - apply firstn_leading_run.
  - rewrite firstn_all2 by lia. apply has_negative_false. exact E.
Qed.

(** The truncation lag is at least 1 when lag 0 is not strictly
    negative, and never exceeds the length by more than one. *)
Lemma autocorrelate_negative_range (a : F) (rest : list F) :
  Fltb a (Fof_int 0) = false ->
  1 <= autocorrelate_negative (a :: rest) <= S (length (a :: rest)).
Proof.
  intros Ha. rewrite autocorrelate_negative_spec.
  destruct (has_negative (a :: rest)).
  - pose proof (leading_run_le (a :: rest)) as Hle.
    simpl in *. rewrite Ha in *. lia.
  - lia.
Qed.

Lemma leading_run_lt (rho : list F) :
  has_negative rho = true -> leading_run rho < length rho.
Proof.
  induction rho as [|a rest IH]; simpl; [discriminate|].
  destruct (Fltb a (Fof_int 0)); simpl; [lia|].
  intros H. specialize (IH H). lia.
Qed.

End TruncationRun.

Lemma autocorrelate_negative_first_negative_witness :
  autocorrelate_negative [1; 0; 0.5; -0.25; 1]%float = 3 /\
  Fltb (nth 3 [1; 0; 0.5; -0.25; 1]%float 0%float) 0%float = true.
Proof.
  pose (H := @autocorrelate_negative_first_negative float float64
               [1; 0; 0.5; -0.25; 1]%float eq_refl).
  split.
  - exact (proj1 H).
  - exact (proj1 (proj2 (proj2 H))).
Defined.

(* ================================================================= *)
(** ** The autocorrelation and the ESS in exact arithmetic *)

Section ExactBounds.

Local Open Scope R_scope.

Lemma Rltb_false (a : R) : Fltb a (Fof_int 0) = false <-> 0 <= a.
Proof.
  cbn [Fltb Fof_int exact]. unfold Rltb.
  destruct (Rlt_dec a 0); split; intros; try lra; discriminate.
Qed.

Lemma Rltb_true (a : R) : Fltb a (Fof_int 0) = true <-> a < 0.
Proof.
  cbn [Fltb Fof_int exact]. unfold Rltb.
  destruct (Rlt_dec a 0); split; intros; try lra; discriminate.
Qed.

Lemma sum_nonneg (l : list R) :
  Forall (fun a => 0 <= a) l -> 0 <= fold_right Rplus 0 l.
Proof.
  induction 1 as [|a t Ha _ IH]; simpl; lra.
Qed.

(** Twice a product of two sequences is bounded by the sum of their
    squares. *)
Lemma dot_bound (a b : list R) :
  let bound := fold_right Rplus 0 (map (fun d => d * d) a)
               + fold_right Rplus 0 (map (fun d => d * d) b) in
  - bound <= 2 * fold_right Rplus 0 (zip_with Rmult a b) <= bound.
Proof.
  cbv zeta. revert b; induction a as [|x t IH]; intros [|y u]; simpl.
  - lra.
  - pose proof (sum_squares_nonneg u). nra.
  - pose proof (sum_squares_nonneg t). nra.
  - specialize (IH u).
    assert (H1 : 0 <= x * x - 2 * (x * y) + y * y).
    { replace (x * x - 2 * (x * y) + y * y) with ((x - y) * (x - y)) by ring.
      apply Rle_0_sqr. }
    assert (H2 : 0 <= x * x + 2 * (x * y) + y * y).
    { replace (x * x + 2 * (x * y) + y * y) with ((x + y) * (x + y)) by ring.
      apply Rle_0_sqr. }
    lra.
Qed.

Lemma sum_squares_skipn (d : nat) (z : list R) :
  fold_right Rplus 0 (map (fun d => d * d) (skipn d z)) <=
  fold_right Rplus 0 (map (fun d => d * d) z).
Proof.
  revert d; induction z as [|a t IH]; intros [|d]; simpl; try lra.
  specialize (IH d). nra.
Qed.

(** The sum of the squares of the scaled sequence. *)
Lemma scaled_sum_squares (x : list R) :
  (1 <= length x)%nat -> np_var 0 x <> 0 ->
  fold_right Rplus 0 (map (fun d => d * d) (scaled x)) = 1.
Proof.
  intros Hn Hv. rewrite <- (scaled_dot_self Hn Hv).
  unfold dot. rewrite np_sum_exact, zip_with_self. reflexivity.
Qed.

(** Lag 0 of the autocorrelation of a sequence with non-zero variance. *)
Lemma autocorrelation_lag0 (x : list R) :
  (1 <= length x)%nat -> np_var 0 x <> 0 ->
  exists rest, autocorrelation x = Ok (1 :: rest).
Proof.
  intros Hn Hv.
  assert (Hx : x <> []) by (destruct x; [simpl in Hn; lia|discriminate]).
  rewrite (autocorrelation_lags Hx).
  destruct (length x) as [|n] eqn:E; [lia|].
  cbn [seq map skipn]. rewrite <- E in Hn.
  rewrite (scaled_dot_self Hn Hv). eauto.
Qed.

(** X3.  In exact arithmetic every lag of the autocorrelation of a sequence
    with non-zero variance lies between -1 and 1. *)
Theorem autocorrelation_bounded (x : list R) :
  (1 <= length x)%nat -> np_var 0 x <> 0 ->
  exists rho,
    autocorrelation x = Ok rho /\
    Forall (fun r => -1 <= r <= 1) rho.
Proof.
  intros Hn Hv.
  assert (Hx : x <> []) by (destruct x; [simpl in Hn; lia|discriminate]).
  eexists. split; [apply autocorrelation_lags; assumption|].
  apply Forall_map. apply Forall_forall. intros d _.
  unfold dot. rewrite np_sum_exact.
  pose proof (dot_bound (skipn d (scaled x)) (scaled x)) as Hb.
  pose proof (sum_squares_skipn d (scaled x)) as Hs.
  cbv zeta in Hb. rewrite (scaled_sum_squares Hn Hv) in Hb, Hs.
  cbn [Fmul exact]. lra.
Qed.

Lemma autocorrelation_bounded_witness :
  exists rho,
    autocorrelation [0%R; 1%R] = Ok rho /\
    Forall (fun r => -1 <= r <= 1) rho.
Proof.
  exact (@autocorrelation_bounded [0%R; 1%R] (le_S 1 1 (le_n 1))
           example_variance).
Defined.

(** X4.  In exact arithmetic, for a sequence of length [n] with non-zero
    variance, [ess_single_param] returns a positive number that is at most
    [n / 3]: lag 0, which is 1, is part of the sum, and no lag in the sum
    is negative. *)
Theorem ess_single_param_bounds (x : list R) :
  (1 <= length x)%nat -> np_var 0 x <> 0 ->
  exists e,
    ess_single_param x = Ok e /\
    0 < e <= INR (length x) / 3.
Proof.
  intros Hn Hv.
  destruct (autocorrelation_lag0 Hn Hv) as [rest Hrho].
  unfold ess_single_param. rewrite Hrho. cbn [bind].
  eexists. split; [reflexivity|].
  assert (H1 : Fltb 1 (Fof_int 0) = false) by (apply Rltb_false; lra).
  pose proof (@autocorrelate_negative_range R exact 1 rest H1) as [HT _].
  pose proof (truncated_lags_not_negative (1 :: rest)) as Hall.
  destruct (autocorrelate_negative (1 :: rest)) as [|T]; [lia|].
  cbn [firstn] in Hall. inversion Hall as [|? ? _ Hrest]; subst.
  assert (Hsum : 0 <= fold_right Rplus 0 (firstn T rest)).
  { apply sum_nonneg. eapply Forall_impl; [|exact Hrest].
    intros a Ha. apply Rltb_false. exact Ha. }
  unfold ess_of. rewrite np_sum_exact. cbn [firstn fold_right].
  unfold of_nat. cbn [Fdiv Fadd Fmul Fof_int exact].
  rewrite <- INR_IZR_INZ.
  assert (Hpos : 0 < INR (length x)) by (apply lt_0_INR; lia).
  set (s := fold_right Rplus 0 (firstn T rest)) in *.
  assert (Hden : 3 <= 1 + 2 * (1 + s)) by lra.
  split.
  - apply Rdiv_lt_0_compat; lra.
  - unfold Rdiv. apply Rmult_le_compat_l; [lra|].
    apply Rinv_le_contravar; lra.
Qed.

Lemma ess_single_param_bounds_witness :
  exists e,
    ess_single_param [0%R; 1%R] = Ok e /\
    0 < e <= INR 2 / 3.
Proof.
  exact (@ess_single_param_bounds [0%R; 1%R] (le_S 1 1 (le_n 1))
           example_variance).
Defined.

End ExactBounds.

(* ================================================================= *)
(** ** Invariance of the autocorrelation in exact arithmetic *)

Section ExactInvariance.

Local Open Scope R_scope.

Lemma sum_map_shift (c : R) (x : list R) :
  fold_right Rplus 0 (map (fun xi => xi + c) x) =
  fold_right Rplus 0 x + INR (length x) * c.
Proof.
  induction x as [|a t IH]; [simpl; lra|].
  cbn [map fold_right length]. rewrite S_INR, IH. lra.
Qed.

Lemma sum_map_scale (a : R) (x : list R) :
  fold_right Rplus 0 (map (fun xi => a * xi) x) = a * fold_right Rplus 0 x.
Proof.
  induction x as [|b t IH]; simpl; [lra|]. rewrite IH. lra.
Qed.

Lemma np_mean_exact (x : list R) :
  np_mean x = fold_right Rplus 0 x / INR (length x).
Proof.
  unfold np_mean. rewrite np_sum_exact. unfold of_nat.
  cbn [Fdiv Fof_int exact]. rewrite <- INR_IZR_INZ. reflexivity.
Qed.

Lemma np_mean_shift (c : R) (x : list R) :
  x <> [] -> np_mean (map (fun xi => xi + c) x) = np_mean x + c.
Proof.
  intros Hx. rewrite !np_mean_exact, sum_map_shift, length_map.
  assert (INR (length x) <> 0).
  { apply not_0_INR. destruct x; [congruence|discriminate]. }
  field. assumption.
Qed.

Lemma np_var_shift (c : R) (x : list R) :
  x <> [] -> np_var 0 (map (fun xi => xi + c) x) = np_var 0 x.
Proof.
  intros Hx. rewrite !np_var_exact, np_mean_shift by assumption.
  rewrite length_map, !map_map. f_equal. f_equal.
  apply map_ext. intros xi. ring.
Qed.

Lemma scaled_shift (c : R) (x : list R) :
  scaled (map (fun xi => xi + c) x) = scaled x.
Proof.
  destruct x as [|a t] eqn:E; [reflexivity|]. rewrite <- E.
  assert (Hx : x <> []) by (rewrite E; discriminate).
  unfold scaled, np_std.
  rewrite np_var_shift, np_mean_shift, length_map by assumption.
  rewrite map_map. apply map_ext. intros xi.
  cbn [Fdiv Fsub Fmul exact]. f_equal. ring.
Qed.

(** X5.  In exact arithmetic, adding a constant to every sample changes
    neither the autocorrelation nor the effective sample size. *)
Theorem autocorrelation_shift_invariant (c : R) (x : list R) :
  autocorrelation (map (fun xi => xi + c) x) = autocorrelation x /\
  ess_single_param (map (fun xi => xi + c) x) = ess_single_param x.
Proof.
  assert (E : autocorrelation (map (fun xi => xi + c) x) = autocorrelation x).
  { unfold autocorrelation.
    fold (scaled (map (fun xi => xi + c) x)). fold (scaled x).
    rewrite scaled_shift. reflexivity. }
  split; [exact E|].
  unfold ess_single_param. rewrite E, length_map. reflexivity.
Qed.

Lemma np_mean_scale (a : R) (x : list R) :
  np_mean (map (fun xi => a * xi) x) = a * np_mean x.
Proof.
  rewrite !np_mean_exact, sum_map_scale, length_map.
  unfold Rdiv. ring.
Qed.

Lemma np_var_scale (a : R) (x : list R) :
  np_var 0 (map (fun xi => a * xi) x) = a * a * np_var 0 x.
Proof.
  rewrite !np_var_exact, np_mean_scale, length_map, !map_map.
  replace (map (fun xi => (a * xi - a * np_mean x) * (a * xi - a * np_mean x))
               x)
    with (map (fun d => (a * a) * d)
              (map (fun xi => (xi - np_mean x) * (xi - np_mean x)) x))
    by (rewrite map_map; apply map_ext; intros; ring).
  rewrite sum_map_scale. unfold Rdiv. ring.
Qed.

Lemma np_var_nonneg (x : list R) : 0 <= np_var 0 x.
Proof.
  rewrite np_var_exact. unfold Rdiv.
  apply Rmult_le_pos; [apply sum_squares_nonneg|].
  destruct (length x) as [|n].
  - simpl. rewrite Rinv_0. lra.
  - left. apply Rinv_0_lt_compat. apply lt_0_INR. lia.
Qed.

Lemma np_std_scale (a : R) (x : list R) :
  np_std (map (fun xi => a * xi) x) = Rabs a * np_std x.
Proof.
  unfold np_std. rewrite np_var_scale. cbn [Fsqrt exact].
  rewrite sqrt_mult by (try apply np_var_nonneg; nra).
  f_equal. fold (Rsqr a). apply sqrt_Rsqr_abs.
Qed.

(** Scaling by [a] multiplies the scaled sequence by the sign of [a]. *)
Lemma scaled_scale (a : R) (x : list R) :
  a <> 0 ->
  scaled (map (fun xi => a * xi) x) =
  map (fun z => a / Rabs a * z) (scaled x).
Proof.
  intros Ha. unfold scaled.
  rewrite np_std_scale, np_mean_scale, length_map, !map_map.
  apply map_ext. intros xi. cbn [Fdiv Fsub Fmul exact].
  unfold Rdiv. rewrite !Rinv_mult. ring.
Qed.

Lemma sign_square (a : R) : a <> 0 -> a / Rabs a * (a / Rabs a) = 1.
Proof.
  intros Ha. assert (Rabs a <> 0) by (apply Rabs_no_R0; assumption).
  replace (a / Rabs a * (a / Rabs a)) with (a * a / (Rabs a * Rabs a))
    by (field; assumption).
  replace (Rabs a * Rabs a) with (a * a).
  - field. assumption.
  - fold (Rsqr (Rabs a)) (Rsqr a). apply Rsqr_abs.
Qed.

Lemma dot_sign (e : R) (u v : list R) :
  e * e = 1 ->
  dot (map (fun z => e * z) u) (map (fun z => e * z) v) = dot u v.
Proof.
  intros He. unfold dot. f_equal.
  revert v; induction u as [|a t IH]; intros [|b w]; simpl; try reflexivity.
  rewrite IH. f_equal. cbn [Fmul exact].
  replace (e * a * (e * b)) with (e * e * (a * b)) by ring.
  rewrite He. ring.
Qed.

(** X6.  In exact arithmetic, multiplying every sample of a sequence with
    non-zero variance by a non-zero constant changes neither the
    autocorrelation nor the effective sample size. *)
Theorem autocorrelation_scale_invariant (a : R) (x : list R) :
  a <> 0 -> np_var 0 x <> 0 ->
  autocorrelation (map (fun xi => a * xi) x) = autocorrelation x /\
  ess_single_param (map (fun xi => a * xi) x) = ess_single_param x.
Proof.
  intros Ha _.
  assert (E : autocorrelation (map (fun xi => a * xi) x) = autocorrelation x).
  { destruct x as [|b t] eqn:Ex; [reflexivity|]. rewrite <- Ex.
    assert (Hx : x <> []) by (rewrite Ex; discriminate).
    assert (Hx' : map (fun xi => a * xi) x <> [])
      by (rewrite Ex; discriminate).
    rewrite (autocorrelation_lags Hx), (autocorrelation_lags Hx').
    rewrite length_map. f_equal. apply map_ext. intros d.
    rewrite scaled_scale by assumption.
    rewrite skipn_map. apply dot_sign. apply sign_square. assumption. }
  split; [exact E|].
  unfold ess_single_param. rewrite E, length_map. reflexivity.
Qed.

Lemma autocorrelation_scale_invariant_witness :
  autocorrelation (map (fun xi => (-2) * xi) [0; 1]) =
  autocorrelation [0; 1].
Proof.
  refine (proj1 (@autocorrelation_scale_invariant (-2) [0; 1] _
                   example_variance)).
  lra.
Defined.

End ExactInvariance.

(* ================================================================= *)
(** ** A strictly negative lag exists *)

Section NegativeLag.

Local Open Scope R_scope.

Lemma skipn_cons_nth {A : Type} (k : nat) (t : list A) (d : A) :
  (k < length t)%nat -> skipn k t = nth k t d :: skipn (S k) t.
Proof.
  revert k; induction t as [|a t IH]; intros k Hk; [simpl in Hk; lia|].
  destruct k as [|k]; [reflexivity|].
  cbn [skipn nth]. rewrite <- IH by (simpl in Hk; lia).
  reflexivity.
Qed.

Lemma sum_map_plus {A : Type} (f g : A -> R) (l : list A) :
  fold_right Rplus 0 (map (fun k => f k + g k) l) =
  fold_right Rplus 0 (map f l) + fold_right Rplus 0 (map g l).
Proof. induction l as [|a t IH]; simpl; [lra|]. rewrite IH. lra. Qed.

Lemma sum_map_mult_r {A : Type} (f : A -> R) (c : R) (l : list A) :
  fold_right Rplus 0 (map (fun k => f k * c) l) =
  fold_right Rplus 0 (map f l) * c.
Proof. induction l as [|a t IH]; simpl; [lra|]. rewrite IH. lra. Qed.

Lemma dot_exact (u v : list R) :
  dot u v = fold_right Rplus 0 (zip_with Rmult u v).
Proof. unfold dot. apply np_sum_exact. Qed.

Lemma dot_skipn_cons (a : R) (t : list R) (k : nat) :
  (k < length t)%nat ->
  dot (skipn k t) (a :: t) = nth k t 0 * a + dot (skipn (S k) t) t.
Proof.
  intros Hk. rewrite (@skipn_cons_nth R k t 0 Hk), !dot_exact. reflexivity.
Qed.

Lemma dot_skipn_all (t : list R) : dot (skipn (length t) t) t = 0.
Proof. rewrite skipn_all, dot_exact. reflexivity. Qed.

Lemma later_lags_cons (a : R) (t : list R) :
  later_lags (a :: t) = a * fold_right Rplus 0 t + later_lags t.
Proof.
  unfold later_lags. cbn [length]. rewrite Nat.sub_succ, Nat.sub_0_r.
  rewrite (map_seq_shift _ 1).
  rewrite map_ext_in
    with (g := fun k => nth k t 0 * a + dot (skipn (S k) t) t).
  2:{ intros k Hk. apply in_seq in Hk.
      cbn [Nat.add skipn]. apply dot_skipn_cons. lia. }
  rewrite sum_map_plus, sum_map_mult_r.
  rewrite <- (list_as_map_seq 0 t).
  assert (Hrest : fold_right Rplus 0
                    (map (fun k => dot (skipn (S k) t) t) (seq 0 (length t)))
                  = fold_right Rplus 0
                      (map (fun d => dot (skipn d t) t)
                           (seq 1 (length t - 1)))).
  { destruct (length t) as [|n] eqn:E; [reflexivity|].
    rewrite Nat.sub_succ, Nat.sub_0_r.
    rewrite seq_S, map_app, fold_right_app. cbn [map fold_right].
    replace (S (0 + n)) with (length t) by lia.
    rewrite dot_skipn_all, Rplus_0_r.
    rewrite (map_seq_shift (fun d => dot (skipn d t) t) 1). reflexivity. }
  rewrite Hrest. ring.
Qed.

(** The square of the sum of a sequence is the sum of its squares plus
    twice the sum of its later lags. *)
Lemma square_of_sum (z : list R) :
  fold_right Rplus 0 z * fold_right Rplus 0 z =
  fold_right Rplus 0 (map (fun d => d * d) z) + 2 * later_lags z.
Proof.
  induction z as [|a t IH].
  - unfold later_lags. simpl. lra.
  - rewrite later_lags_cons. cbn [map fold_right].
    replace ((a + fold_right Rplus 0 t) * (a + fold_right Rplus 0 t))
      with (a * a + 2 * (a * fold_right Rplus 0 t)
            + fold_right Rplus 0 t * fold_right Rplus 0 t) by ring.
    rewrite IH. ring.
Qed.

Lemma scaled_sum_zero (x : list R) :
  x <> [] -> fold_right Rplus 0 (scaled x) = 0.
Proof.
  intros Hx. unfold scaled.
  set (s := Fmul (np_std x) (Fsqrt (of_nat (length x)))).
  cbn [Fdiv Fsub exact].
  rewrite map_ext with (g := fun xi => (xi + - np_mean x) * / s)
    by (intros; unfold Rdiv, Rminus; reflexivity).
  rewrite <- (map_map (fun xi => xi + - np_mean x) (fun d => d * / s)).
  rewrite sum_map_mult_r, map_id, sum_map_shift, np_mean_exact.
  assert (INR (length x) <> 0).
  { apply not_0_INR. destruct x; [congruence|discriminate]. }
  replace (fold_right Rplus 0 x
           + INR (length x) * - (fold_right Rplus 0 x / INR (length x)))
    with 0 by (field; assumption).
  ring.
Qed.

(** X7.  In exact arithmetic the autocorrelation of a sequence with non-zero
    variance has a strictly negative lag: the truncation lag is the length
    of the leading run of non-negative lags, at least 1 and at most
    [n - 1], and [autocorrelate_negative] does not reach its final
    [return]. *)
Theorem autocorrelation_has_negative_lag (x : list R) :
  (1 <= length x)%nat -> np_var 0 x <> 0 ->
  exists rho,
    autocorrelation x = Ok rho /\
    has_negative rho = true /\
    autocorrelate_negative rho = leading_run rho /\
    (1 <= autocorrelate_negative rho <= length x - 1)%nat /\
    nth (autocorrelate_negative rho) rho 0 < 0.
Proof.
  intros Hn Hv.
  assert (Hx : x <> []) by (destruct x; [simpl in Hn; lia|discriminate]).
  pose proof (autocorrelation_lags Hx) as Hrho.
  set (rho := map (fun d => dot (skipn d (scaled x)) (scaled x))
                  (seq 0 (length x))) in *.
  assert (Hlen : length rho = length x)
    by (unfold rho; rewrite length_map, length_seq; reflexivity).
  assert (Hneg : has_negative rho = true).
  { destruct (has_negative rho) eqn:E; [reflexivity|exfalso].
    apply has_negative_false in E.
    pose proof (square_of_sum (scaled x)) as Hsq.
    rewrite (scaled_sum_zero Hx), (scaled_sum_squares Hn Hv) in Hsq.
    assert (Hlater : 0 <= later_lags (scaled x)).
    { unfold later_lags. apply sum_nonneg. rewrite scaled_length.
      apply Forall_forall. intros r Hr.
      rewrite Forall_forall in E. apply Rltb_false. apply E.
      unfold rho. apply in_map_iff in Hr. destruct Hr as [d [<- Hd]].
      apply in_map_iff. exists d. split; [reflexivity|].
      apply in_seq in Hd. apply in_seq. lia. }
    lra. }
  assert (HT : autocorrelate_negative rho = leading_run rho)
    by (rewrite autocorrelate_negative_spec, Hneg; reflexivity).
  pose proof (leading_run_lt rho Hneg) as Hlt.
  pose proof (leading_run_stop rho 0 Hneg) as Hstop.
  exists rho. split; [exact Hrho|]. split; [exact Hneg|].
  split; [exact HT|]. split.
  - destruct (autocorrelation_lag0 Hn Hv) as [rest Hrest].
    assert (Erho : rho = 1 :: rest) by congruence.
    assert (H1 : Fltb 1 (Fof_int 0) = false) by (apply Rltb_false; lra).
    pose proof (@autocorrelate_negative_range R exact 1 rest H1) as [Hge _].
    rewrite <- Erho in Hge. rewrite HT in *. lia.
  - rewrite HT. apply Rltb_true. exact Hstop.
Qed.

Lemma autocorrelation_has_negative_lag_witness :
  exists rho,
    autocorrelation [0; 1] = Ok rho /\
    has_negative rho = true /\
    autocorrelate_negative rho = leading_run rho /\
    (1 <= autocorrelate_negative rho <= 2 - 1)%nat /\
    nth (autocorrelate_negative rho) rho 0 < 0.
Proof.
  exact (@autocorrelation_has_negative_lag [0; 1] (le_S 1 1 (le_n 1))
           example_variance).
Defined.

End NegativeLag.

(* ================================================================= *)
(** ** Further properties of [rhat] *)

Lemma float_to_int_mul_nan (x : float) :
  float_to_int (PrimFloat.mul x nan) = IsNaN.
Proof.
  unfold float_to_int. rewrite mul_spec.
  replace (Prim2SF nan) with S754_nan by reflexivity.
  destruct (Prim2SF x); reflexivity.
Qed.

(** X8.  On binary64, a NaN [warm_up] passes the test on [warm_up] and
    [int(n * warm_up)] raises the [ValueError] of a NaN conversion, which
    is not the warm-up [ValueError]. *)
Theorem rhat_nan_warm_up (c : chains_array float) :
  2 <= shape0 (Rank23 c) ->
  rhat (Rank23 c) nan = Raise (ValueError Msg_int_of_nan) /\
  ~ fails_with (rhat (Rank23 c) nan) InvalidParameterError.
Proof.
  intros Hm.
  assert (E : rhat (Rank23 c) nan = Raise (ValueError Msg_int_of_nan)).
  { rewrite rhat_valid by (try assumption; reflexivity).
    unfold rhat_checked, py_int. cbn [Fto_int Fmul float64].
    rewrite float_to_int_mul_nan. reflexivity. }
  split; [exact E|]. rewrite E. intros [e [He Ht]].
  inversion He; subst. discriminate.
Qed.

Lemma rhat_nan_warm_up_witness :
  rhat (Rank23 (Nd2 2 4 [[1; 2; 3; 5]; [2; 1; 4; 4]]%float)) nan =
  Raise (ValueError Msg_int_of_nan).
Proof.
  refine (proj1 (@rhat_nan_warm_up
                   (Nd2 2 4 [[1; 2; 3; 5]; [2; 1; 4; 4]]%float) _)).
  repeat constructor.
Defined.

Section RhatWarmUp.

Context {F : Type} {NF : Numeric F}.

Lemma drop_samples_zero (c : chains_array F) : drop_samples 0 c = c.
Proof.
  change 0%Z with (Z.of_nat 0). rewrite drop_samples_nonneg.
  unfold trim_warmup. destruct c as [m n rows|m n p blocks];
    rewrite Nat.sub_0_r; f_equal;
    (rewrite map_ext with (g := fun r => r) by reflexivity; apply map_id).
Qed.

Lemma shape0_drop_samples (z : Z) (c : chains_array F) :
  shape0 (Rank23 (drop_samples z c)) = shape0 (Rank23 c).
Proof. destruct c; reflexivity. Qed.

(** [rhat_checked] on chains and a warm-up that converts to [z] is
    [rhat_checked] on the chains without their first samples and a warm-up
    that converts to 0. *)
Lemma rhat_checked_drop (c : chains_array F) (warm_up zero : F) (z : Z) :
  Fto_int (Fmul (of_nat (shape1 (Rank23 c))) warm_up) = IsInt z ->
  Fto_int (Fmul (of_nat (shape1 (Rank23 (drop_samples z c)))) zero) =
    IsInt 0 ->
  rhat_checked c warm_up = rhat_checked (drop_samples z c) zero.
Proof.
  intros Hz H0. unfold rhat_checked, py_int. rewrite Hz, H0. cbn [bind].
  rewrite drop_samples_zero. reflexivity.
Qed.

End RhatWarmUp.

Section ExactRhat.

Local Open Scope R_scope.

(** X9.  In exact arithmetic, for chains of rank 2 or 3 with at least two
    chains and [warm_up] in [[0, 1]], [rhat] with a warm-up is [rhat]
    without warm-up on the chains without their first
    [floor(warm_up * n)] samples. *)
Theorem rhat_warm_up_as_slice (c : chains_array R) (warm_up : R) :
  (2 <= shape0 (Rank23 c))%nat ->
  0 <= warm_up <= 1 ->
  let k := warm_up_samples (shape1 (Rank23 c)) warm_up in
  rhat (Rank23 c) warm_up =
  rhat (Rank23 (drop_samples (Z.of_nat k) c)) 0.
Proof.
  intros Hm [Hw0 Hw1] k.
  assert (H1 : forall w, 0 <= w <= 1 -> Fltb (Fof_int 1) w = false).
  { intros w Hw. cbn. unfold Rltb. destruct (Rlt_dec 1 w); [lra|reflexivity]. }
  assert (H0 : forall w, 0 <= w <= 1 -> Fltb w (Fof_int 0) = false).
  { intros w Hw. cbn. unfold Rltb. destruct (Rlt_dec w 0); [lra|reflexivity]. }
  rewrite (@rhat_valid R exact c warm_up Hm (H1 _ (conj Hw0 Hw1))
             (H0 _ (conj Hw0 Hw1))).
  assert (Hm' : (2 <= shape0 (Rank23 (drop_samples (Z.of_nat k) c)))%nat)
    by (rewrite shape0_drop_samples; assumption).
  assert (Hz : 0 <= 0 <= 1) by lra.
  rewrite (@rhat_valid R exact _ 0 Hm' (H1 _ Hz) (H0 _ Hz)).
  apply rhat_checked_drop.
  - apply py_int_warm_up. assumption.
  - rewrite py_int_warm_up by lra. unfold warm_up_samples.
    rewrite Rmult_0_r. change 0 with (IZR 0). rewrite Int_part_IZR.
    reflexivity.
Qed.

Lemma rhat_warm_up_as_slice_witness :
  rhat (Rank23 (Nd2 2 8 [[9; 9; 9; 9; 0; 1; 2; 3];
                         [7; 7; 7; 7; 1; 0; 3; 2]])) (1 / 2) =
  rhat (Rank23 (drop_samples
                  (Z.of_nat (warm_up_samples 8 (1 / 2)))
                  (Nd2 2 8 [[9; 9; 9; 9; 0; 1; 2; 3];
                            [7; 7; 7; 7; 1; 0; 3; 2]]))) 0.
Proof.
  refine (@rhat_warm_up_as_slice
            (Nd2 2 8 [[9; 9; 9; 9; 0; 1; 2; 3]; [7; 7; 7; 7; 1; 0; 3; 2]])
            (1 / 2) _ _).
  - repeat constructor.
  - split; lra.
Defined.

End ExactRhat.

Section ExactRhatValue.

Local Open Scope R_scope.

(** [rhat] on chains of rank 2 in exact arithmetic, when the length
    check passes. *)
Lemma rhat_Nd2_exact (m n : nat) (rows : list (list R)) (warm_up : R) :
  (2 <= m)%nat -> 0 <= warm_up <= 1 ->
  let k := warm_up_samples n warm_up in
  let n' := ((n - k) / 2)%nat in
  (2 <= n')%nat ->
  rhat (Rank23 (Nd2 m n rows)) warm_up =
  Ok (Scalar (rhat_of_parameter k n' rows)).
Proof.
  intros Hm [Hw0 Hw1] k n' Hn.
  assert (H1 : Fltb (Fof_int 1) warm_up = false).
  { cbn. unfold Rltb. destruct (Rlt_dec 1 warm_up); [lra|reflexivity]. }
  assert (H0 : Fltb warm_up (Fof_int 0) = false).
  { cbn. unfold Rltb. destruct (Rlt_dec warm_up 0); [lra|reflexivity]. }
  rewrite (@rhat_valid R exact (Nd2 m n rows) warm_up Hm H1 H0).
  rewrite (@rhat_checked_steps R exact (Nd2 m n rows) warm_up k
             (py_int_warm_up n Hw0) Hn).
  cbv zeta. unfold shape1. cbn [shape nth]. fold k. fold n'.
  rewrite within_Nd2, between_Nd2.
  rewrite rhat_combine_scalar by lia. reflexivity.
Qed.

Lemma rhat_Nd2_short (m n : nat) (rows : list (list R)) (warm_up : R) :
  (2 <= m)%nat -> 0 <= warm_up <= 1 ->
  let k := warm_up_samples n warm_up in
  let n' := ((n - k) / 2)%nat in
  (n' < 2)%nat ->
  rhat (Rank23 (Nd2 m n rows)) warm_up = Raise (ValueError (Msg_num_samples n')).
Proof.
  intros Hm [Hw0 Hw1] k n' Hn.
  assert (H1 : Fltb (Fof_int 1) warm_up = false).
  { cbn. unfold Rltb. destruct (Rlt_dec 1 warm_up); [lra|reflexivity]. }
  assert (H0 : Fltb warm_up (Fof_int 0) = false).
  { cbn. unfold Rltb. destruct (Rlt_dec warm_up 0); [lra|reflexivity]. }
  rewrite (@rhat_valid R exact (Nd2 m n rows) warm_up Hm H1 H0).
  unfold rhat_checked, py_int. unfold shape1 at 1. cbn [shape nth].
  rewrite (py_int_warm_up n Hw0). cbn [bind]. fold k.
  rewrite drop_samples_nonneg. unfold shape1. cbn [shape nth]. fold n'.
  destruct (Nat.ltb_spec n' 2); [reflexivity|lia].
Qed.

Lemma unbiased_variance_exact (l : list R) :
  unbiased_variance l =
  fold_right Rplus 0 (map (fun d => d * d) (map (fun x => x - np_mean l) l))
  / INR (length l - 1).
Proof.
  unfold unbiased_variance. rewrite np_sum_exact, map_map. unfold of_nat.
  cbn [Fdiv Fmul Fsub Fof_int exact]. rewrite <- INR_IZR_INZ. reflexivity.
Qed.

Lemma Rinv_nonneg (r : R) : 0 <= r -> 0 <= / r.
Proof.
  intros [H|<-]; [left; apply Rinv_0_lt_compat; assumption|].
  rewrite Rinv_0. lra.
Qed.

Lemma unbiased_variance_nonneg (l : list R) : 0 <= unbiased_variance l.
Proof.
  rewrite unbiased_variance_exact. unfold Rdiv.
  apply Rmult_le_pos; [apply sum_squares_nonneg|].
  apply Rinv_nonneg. apply pos_INR.
Qed.

Lemma within_variance_nonneg (chains : list (list R)) :
  0 <= within_variance chains.
Proof.
  unfold within_variance. rewrite np_mean_exact. unfold Rdiv.
  apply Rmult_le_pos; [|apply Rinv_nonneg; apply pos_INR].
  apply sum_nonneg. apply Forall_map. apply Forall_forall.
  intros l _. apply unbiased_variance_nonneg.
Qed.

Lemma between_variance_nonneg (n' : nat) (chains : list (list R)) :
  0 <= between_variance n' chains.
Proof.
  unfold between_variance, of_nat. cbn [Fmul Fof_int exact].
  apply Rmult_le_pos; [apply IZR_le; lia|apply unbiased_variance_nonneg].
Qed.

(** X10.  In exact arithmetic, for chains of rank 2 that pass the checks and
    whose mean within-chain variance is not zero, [rhat] is at least
    [sqrt((n' - 1) / n')]: the between-chain term is never negative. *)
Theorem rhat_lower_bound (m n : nat) (rows : list (list R)) (warm_up : R) :
  (2 <= m)%nat -> 0 <= warm_up <= 1 ->
  let k := warm_up_samples n warm_up in
  let n' := ((n - k) / 2)%nat in
  let split := pseudo_chains n' (trim_warmup k rows) in
  (2 <= n')%nat ->
  within_variance split <> 0 ->
  exists r,
    rhat (Rank23 (Nd2 m n rows)) warm_up = Ok (Scalar r) /\
    0 <= between_variance n' split /\
    0 < within_variance split /\
    sqrt (INR (n' - 1) / INR n') <= r.
Proof.
  intros Hm Hw k n' split Hn HW.
  eexists. split; [apply rhat_Nd2_exact; assumption|].
  pose proof (between_variance_nonneg n' split) as HB.
  pose proof (within_variance_nonneg split) as HW0.
  assert (HWpos : 0 < within_variance split) by lra.
  split; [exact HB|]. split; [exact HWpos|].
  unfold rhat_of_parameter, rhat_formula. fold k n' split.
  unfold of_nat. cbn [Fsqrt Fadd Fdiv Fmul Fof_int exact].
  rewrite <- !INR_IZR_INZ.
  apply sqrt_le_1_alt.
  assert (Hn' : 0 < INR n') by (apply lt_0_INR; lia).
  assert (0 <= between_variance n' split / (within_variance split * INR n')).
  { unfold Rdiv. apply Rmult_le_pos; [assumption|].
    left. apply Rinv_0_lt_compat. apply Rmult_lt_0_compat; assumption. }
  lra.
Qed.

End ExactRhatValue.

Section ExactRhatRuns.

Local Open Scope R_scope.

Lemma warm_up_samples_zero (n : nat) : warm_up_samples n 0 = 0%nat.
Proof.
  unfold warm_up_samples. rewrite Rmult_0_r.
  change 0 with (IZR 0). rewrite Int_part_IZR. reflexivity.
Qed.

Lemma example_within_variance :
  within_variance (pseudo_chains 2 (trim_warmup 0 [[0; 1; 0; 1]; [0; 1; 0; 1]]))
  = 1 / 2.
Proof.
  unfold within_variance. rewrite np_mean_exact.
  cbn [pseudo_chains trim_warmup map skipn firstn app length Nat.sub].
  rewrite !unbiased_variance_exact, !np_mean_exact.
  cbn [map fold_right length Nat.sub INR]. field.
Qed.

Lemma rhat_lower_bound_witness :
  let rows := [[0; 1; 0; 1]; [0; 1; 0; 1]] in
  let k := warm_up_samples 4 0 in
  let n' := ((4 - k) / 2)%nat in
  let split := pseudo_chains n' (trim_warmup k rows) in
  exists r,
    rhat (Rank23 (Nd2 2 4 rows)) 0 = Ok (Scalar r) /\
    0 <= between_variance n' split /\
    0 < within_variance split /\
    sqrt (INR (n' - 1) / INR n') <= r.
Proof.
  refine (@rhat_lower_bound 2 4 [[0; 1; 0; 1]; [0; 1; 0; 1]] 0 _ _ _ _).
  - repeat constructor.
  - split; lra.
  - rewrite warm_up_samples_zero. repeat constructor.
  - rewrite warm_up_samples_zero.
    change ((4 - 0) / 2)%nat with 2%nat.
    rewrite example_within_variance. lra.
Defined.

End ExactRhatRuns.

Section ExactRhatShift.

Local Open Scope R_scope.

Lemma unbiased_variance_shift (a : R) (l : list R) :
  l <> [] ->
  unbiased_variance (map (fun x => x + a) l) = unbiased_variance l.
Proof.
  intros Hl. rewrite !unbiased_variance_exact, np_mean_shift by assumption.
  rewrite length_map, !map_map. f_equal. f_equal.
  apply map_ext. intros x. ring.
Qed.

Lemma pseudo_chains_map {A B : Type} (f : A -> B) (k n' : nat)
    (chains : list (list A)) :
  pseudo_chains n' (trim_warmup k (map (map f) chains)) =
  map (map f) (pseudo_chains n' (trim_warmup k chains)).
Proof.
  unfold pseudo_chains, trim_warmup.
  rewrite map_app, !map_map. f_equal; apply map_ext; intros c.
  - rewrite skipn_map, firstn_map. reflexivity.
  - rewrite skipn_map, length_map. apply skipn_map.
Qed.

Lemma rhat_formula_shift (a : R) (n' : nat) (chains : list (list R)) :
  chains <> [] -> Forall (fun c => c <> []) chains ->
  rhat_formula n' (map (map (fun x => x + a)) chains) =
  rhat_formula n' chains.
Proof.
  intros Hc Hall. unfold rhat_formula.
  assert (HW : within_variance (map (map (fun x => x + a)) chains) =
               within_variance chains).
  { unfold within_variance. rewrite map_map. f_equal.
    apply map_ext_in. intros c Hin. apply unbiased_variance_shift.
    rewrite Forall_forall in Hall. apply Hall. assumption. }
  assert (HB : between_variance n' (map (map (fun x => x + a)) chains) =
               between_variance n' chains).
  { unfold between_variance. f_equal. rewrite map_map.
    rewrite map_ext_in with (g := fun c => np_mean c + a).
    - rewrite <- (map_map np_mean (fun x => x + a)).
      apply unbiased_variance_shift.
      intros E. apply Hc. apply map_eq_nil in E. exact E.
    - intros c Hin. apply np_mean_shift.
      rewrite Forall_forall in Hall. apply Hall. assumption. }
  rewrite HW, HB. reflexivity.
Qed.

(** X11.  In exact arithmetic, adding a constant to every sample of chains of
    rank 2 does not change what [rhat] returns or raises. *)
Theorem rhat_shift_invariant (m n : nat) (rows : list (list R))
    (a warm_up : R) :
  rect2 m n rows -> (2 <= m)%nat -> 0 <= warm_up <= 1 ->
  rhat (Rank23 (Nd2 m n (map (map (fun x => x + a)) rows))) warm_up =
  rhat (Rank23 (Nd2 m n rows)) warm_up.
Proof.
  intros [Hlen Hrows] Hm Hw.
  set (k := warm_up_samples n warm_up).
  destruct (Nat.lt_ge_cases ((n - k) / 2) 2) as [Hshort|Hlong].
  - rewrite !rhat_Nd2_short by assumption. reflexivity.
  - rewrite !rhat_Nd2_exact by assumption. fold k.
    unfold rhat_of_parameter. rewrite pseudo_chains_map.
    destruct (pseudo_chains_rect k Hlen Hrows (Nat.le_refl ((n - k) / 2)))
      as [Hpl Hpn].
    rewrite rhat_formula_shift; [reflexivity| |].
    + intros E. rewrite E in Hpl. simpl in Hpl. lia.
    + eapply Forall_impl; [|exact Hpn].
      intros c Hc E. rewrite E in Hc. cbn [length] in Hc. lia.
Qed.

Lemma rhat_shift_invariant_witness :
  rhat (Rank23 (Nd2 2 4 (map (map (fun x => x + 10))
                            [[0; 1; 0; 1]; [0; 1; 0; 1]]))) 0 =
  rhat (Rank23 (Nd2 2 4 [[0; 1; 0; 1]; [0; 1; 0; 1]])) 0.
Proof.
  refine (@rhat_shift_invariant 2 4 [[0; 1; 0; 1]; [0; 1; 0; 1]] 10 0 _ _ _).
  - split; [reflexivity|]. repeat constructor.
  - repeat constructor.
  - split; lra.
Defined.

End ExactRhatShift.

(* ================================================================= *)
(** ** The results aggregator: construction and accessors *)

Section Construction.

Context {F : Type} {NF : Numeric F}.

(** X12.  Every object that [MCMCResults(chains, time, parameter_names)]
    returns holds the chains and the time it was given, takes its number
    of parameters from the first chain, has one name for each parameter
    (the given names, if any), an empty summary list and none of the
    attributes of [make_summary]; its time, if any, did not test as
    [<= 0]. *)
Theorem MCMCResults_init_returns (chains : list (matrix F)) (time : option F)
    (parameter_names : option (list string)) (self : MCMCResults F) :
  MCMCResults_init chains time parameter_names = Ok self ->
  (exists first rest,
     chains = first :: rest /\ _num_params self = n_cols first) /\
  _chains self = chains /\
  _time self = time /\
  (forall t, time = Some t -> Fleb t (Fof_int 0) = false) /\
  length (_parameter_names self) = _num_params self /\
  (forall names, parameter_names = Some names ->
                 _parameter_names self = names) /\
  (parameter_names = None ->
   forall i, i < _num_params self ->
     nth i (_parameter_names self) EmptyString =
     String.append "param " (str (i + 1))) /\
  _summary_list self = [] /\
  _mean self = None /\ _std self = None /\ _quantiles self = None /\
  _ess self = None /\ _ess_per_second self = None /\
  _num_chains self = None /\ _rhat self = None.
Proof.
  unfold MCMCResults_init, getitem.
  destruct chains as [|first rest]; [discriminate|].
  cbn [nth_error bind].
  destruct (match time with Some t => Fleb t (Fof_int 0) | None => false end)
    eqn:Et; [discriminate|].
  destruct (match parameter_names with
            | Some names => negb (n_cols first =? length names)
            | None => false
            end) eqn:En; [discriminate|].
  intros H. inversion H; subst; clear H. cbn.
  split; [eauto|]. split; [reflexivity|]. split; [reflexivity|].
  split; [intros t ->; exact Et|].
  split.
  { destruct parameter_names as [names|].
    - apply negb_false_iff, Nat.eqb_eq in En. symmetry. exact En.
    - rewrite length_map, length_seq. reflexivity. }
  split; [intros names ->; reflexivity|].
  split.
  { intros ->. intros i Hi.
    rewrite nth_map_seq by assumption. reflexivity. }
  repeat split.
Qed.

(** X13.  The errors of the constructor, in the order of its tests: an empty
    list of chains raises [IndexError]; otherwise a time that tests as
    [<= 0] raises the elapsed-time [ValueError], whatever the names are;
    otherwise names whose number is not the number of columns of the first
    chain raise the parameter-names [ValueError]. *)
Theorem MCMCResults_init_errors (chains : list (matrix F)) (time : option F)
    (parameter_names : option (list string)) :
  (chains = [] ->
   MCMCResults_init chains time parameter_names =
   Raise (IndexError Msg_index)) /\
  (forall t, chains <> [] -> time = Some t -> Fleb t (Fof_int 0) = true ->
   MCMCResults_init chains time parameter_names =
   Raise (ValueError Msg_elapsed_time)) /\
  (forall first rest names,
     chains = first :: rest ->
     (forall t, time = Some t -> Fleb t (Fof_int 0) = false) ->
     parameter_names = Some names -> length names <> n_cols first ->
     MCMCResults_init chains time parameter_names =
     Raise (ValueError Msg_parameter_names)).
Proof.
  split; [|split].
  - intros ->. reflexivity.
  - intros t Hc -> Ht. destruct chains as [|first rest]; [congruence|].
    unfold MCMCResults_init, getitem. cbn [nth_error bind].
    rewrite Ht. reflexivity.
  - intros first rest names -> Ht -> Hn.
    unfold MCMCResults_init, getitem. cbn [nth_error bind].
    destruct time as [t|]; [rewrite (Ht t eq_refl)|];
      (destruct (Nat.eqb_spec (n_cols first) (length names));
       [congruence|reflexivity]).
Qed.

(** X14.  On a newly constructed object the accessors of the quantities that
    [make_summary] computes raise [AttributeError]. *)
Theorem accessors_before_summary (chains : list (matrix F)) (time : option F)
    (parameter_names : option (list string)) (self : MCMCResults F) :
  MCMCResults_init chains time parameter_names = Ok self ->
  mean self = Raise (AttributeError "MCMCResults" "_mean") /\
  std self = Raise (AttributeError "MCMCResults" "_std") /\
  quantiles self = Raise (AttributeError "MCMCResults" "_quantiles") /\
  results_rhat self = Raise (AttributeError "MCMCResults" "_rhat") /\
  ess self = Raise (AttributeError "MCMCResults" "_ess") /\
  ess_per_second self =
    Raise (AttributeError "MCMCResults" "_ess_per_second").
Proof.
  unfold MCMCResults_init, getitem.
  destruct chains as [|first rest]; [discriminate|].
  cbn [nth_error bind].
  destruct (match time with Some t => Fleb t (Fof_int 0) | None => false end);
    [discriminate|].
  destruct (match parameter_names with
            | Some names => negb (n_cols first =? length names)
            | None => false
            end); [discriminate|].
  intros H. inversion H; subst; clear H. repeat split.
Qed.

End Construction.

(* ================================================================= *)
(** ** The results aggregator: the summary *)

Section Summary.

Context {F : Type} {NF : Numeric F}.

Variable np_percentile : list (list F) -> list F -> list (list F).

Variable call_diagnostics :
  string -> list (matrix F) -> result F (list (cell F)).

Lemma comprehension_inv {A B : Type} (f : A -> result F B) (l : list A)
    (v : list B) :
  comprehension f l = Ok v -> Forall2 (fun a b => f a = Ok b) l v.
Proof.
  revert v; induction l as [|a t IH]; intros v H; simpl in H.
  - inversion H. constructor.
  - destruct (f a) as [b|e] eqn:Ea; [|discriminate]. cbn [bind] in H.
    destruct (comprehension f t) as [bs|e]; [|discriminate].
    cbn [bind] in H. inversion H; subst.
    constructor; [exact Ea|]. apply IH. reflexivity.
Qed.

Lemma getitem_inv {A : Type} (l : list A) (i : nat) (a : A) :
  @getitem F A l i = Ok a -> nth_error l i = Some a.
Proof.
  unfold getitem. destruct (nth_error l i); [|discriminate].
  intros H. inversion H. reflexivity.
Qed.

(** The rows that [summary_row] builds. *)
Lemma summary_row_inv (name : string) (mean std : list F)
    (quantiles : list (list F)) (rhat : list (cell F)) (ess : list F)
    (ess_per_second : option (list F)) (i : nat) (row : list (cell F)) :
  summary_row name mean std quantiles rhat ess ess_per_second i = Ok row ->
  exists m s q0 q1 q2 q3 q4 rh e,
    nth_error mean i = Some m /\ nth_error std i = Some s /\
    nth_error rhat i = Some rh /\ nth_error ess i = Some e /\
    row = [Str name; Num m; Num s; Num q0; Num q1; Num q2; Num q3; Num q4;
           rh; Num e]
          ++ match ess_per_second with
             | Some eps => match nth_error eps i with
                           | Some x => [Num x]
                           | None => []
                           end
             | None => []
             end /\
    (forall eps, ess_per_second = Some eps -> nth_error eps i <> None).
Proof.
  unfold summary_row. intros H.
  destruct (getitem mean i) as [m|] eqn:Em; [|discriminate].
  destruct (getitem std i) as [s|] eqn:Es; [|discriminate].
  cbn [bind] in H.
  destruct (getitem quantiles 0) as [r0|]; [|discriminate]. cbn [bind] in H.
  destruct (getitem r0 i) as [q0|]; [|discriminate]. cbn [bind] in H.
  destruct (getitem quantiles 1) as [r1|]; [|discriminate]. cbn [bind] in H.
  destruct (getitem r1 i) as [q1|]; [|discriminate]. cbn [bind] in H.
  destruct (getitem quantiles 2) as [r2|]; [|discriminate]. cbn [bind] in H.
  destruct (getitem r2 i) as [q2|]; [|discriminate]. cbn [bind] in H.
  destruct (getitem quantiles 3) as [r3|]; [|discriminate]. cbn [bind] in H.
  destruct (getitem r3 i) as [q3|]; [|discriminate]. cbn [bind] in H.
  destruct (getitem quantiles 4) as [r4|]; [|discriminate]. cbn [bind] in H.
  destruct (getitem r4 i) as [q4|]; [|discriminate]. cbn [bind] in H.
  destruct (getitem rhat i) as [rh|] eqn:Er; [|discriminate].
  destruct (getitem ess i) as [e|] eqn:Ee; [|discriminate].
  cbn [bind] in H.
  apply getitem_inv in Em, Es, Er, Ee.
  exists m, s, q0, q1, q2, q3, q4, rh, e.
  repeat (split; [assumption|]).
  destruct ess_per_second as [eps|].
  - destruct (getitem eps i) as [x|] eqn:Ex; [|discriminate].
    apply getitem_inv in Ex. cbn [bind] in H. inversion H; subst.
    rewrite Ex. split; [reflexivity|].
    intros eps' Heq. inversion Heq; subst. congruence.
  - inversion H; subst. split; [reflexivity|]. intros eps Heq. discriminate.
Qed.

(** What a successful [make_summary] has computed. *)
Lemma make_summary_inv (self done : MCMCResults F) :
  make_summary np_percentile call_diagnostics self = Ok done ->
  exists stacked ess rhat rows,
    np_vstack (_chains self) = Ok stacked /\
    effective_sample_size (to_ndarray stacked) = Ok ess /\
    summary_rhat call_diagnostics self (length (_chains self)) = Ok rhat /\
    comprehension
      (fun i =>
         match _time self with
         | Some _ =>
             name <- getitem (_parameter_names self) i ;;
             summary_row name
               (mean_axis0 (n_cols stacked) (entries stacked))
               (map Fsqrt (var_axis0 0 (n_cols stacked) (entries stacked)))
               (np_percentile (entries stacked) percentages) rhat ess
               (match _time self with
                | Some t => Some (map (fun e => Fdiv e t) ess)
                | None => _ess_per_second self
                end) i
         | None =>
             summary_row (String.append "param " (str (i + 1)))
               (mean_axis0 (n_cols stacked) (entries stacked))
               (map Fsqrt (var_axis0 0 (n_cols stacked) (entries stacked)))
               (np_percentile (entries stacked) percentages) rhat ess None i
         end)
      (seq 0 (_num_params self)) = Ok rows /\
    done =
    Build_MCMCResults (_chains self) (_num_params self) (_time self)
      (_parameter_names self) (_summary_list self ++ rows)
      (Some (mean_axis0 (n_cols stacked) (entries stacked)))
      (Some (map Fsqrt (var_axis0 0 (n_cols stacked) (entries stacked))))
      (Some (np_percentile (entries stacked) percentages)) (Some ess)
      (match _time self with
       | Some t => Some (map (fun e => Fdiv e t) ess)
       | None => _ess_per_second self
       end)
      (Some (length (_chains self))) (Some rhat).
Proof.
  unfold make_summary. intros H.
  destruct (np_vstack (_chains self)) as [stacked|] eqn:Es; [|discriminate].
  cbn [bind] in H.
  destruct (effective_sample_size (to_ndarray stacked)) as [ess|] eqn:Ee;
    [|discriminate].
  cbn [bind] in H.
  destruct (summary_rhat call_diagnostics self (length (_chains self)))
    as [rhat|] eqn:Er; [|discriminate].
  cbn [bind] in H.
  match type of H with
  | bind ?c _ = _ => destruct c as [rows|] eqn:Erows; [|discriminate]
  end.
  cbn [bind] in H. inversion H; subst; clear H.
  exists stacked, ess, rhat, rows.
  repeat (split; [first [reflexivity|assumption]|]). reflexivity.
Qed.

Lemma np_vstack_nonempty (arrays : list (matrix F)) (stacked : matrix F) :
  np_vstack arrays = Ok stacked -> arrays <> [].
Proof. intros H E. subst. discriminate. Qed.

Lemma summary_rhat_returns (self : MCMCResults F) (n : nat)
    (rhat : list (cell F)) :
  summary_rhat call_diagnostics self n = Ok rhat ->
  n <= 1 /\ rhat = repeat (Str "NA") (_num_params self).
Proof.
  unfold summary_rhat. rewrite rhat_all_params_missing.
  destruct (Nat.ltb_spec 1 n) as [Hlt|Hge]; [discriminate|].
  intros E. inversion E. split; [lia|reflexivity].
Qed.

End Summary.

Section SummaryProperties.

Context {F : Type} {NF : Numeric F}.

Variable np_percentile : list (list F) -> list F -> list (list F).

Variable call_diagnostics :
  string -> list (matrix F) -> result F (list (cell F)).

Lemma nth_error_repeat_inv {A : Type} (a b : A) (n i : nat) :
  nth_error (repeat a n) i = Some b -> b = a.
Proof.
  intros H. apply nth_error_In in H. apply repeat_spec in H. exact H.
Qed.

Lemma nth_error_some_nth {A : Type} (l : list A) (i : nat) (a d : A) :
  nth_error l i = Some a -> nth i l d = a.
Proof. intros H. apply nth_error_nth. exact H. Qed.

(** X15.  Whenever [make_summary] returns, the object has exactly one chain,
    its [rhat] is ["NA"] for every parameter, and one row was appended to
    the summary list for each parameter: of 11 entries with a run time and
    10 without, with ["NA"] in the [rhat] column, and labelled with the
    parameter name when a run time was given and with ["param i"]
    otherwise, whatever the parameter names are. *)
Theorem make_summary_rows (self done : MCMCResults F) :
  make_summary np_percentile call_diagnostics self = Ok done ->
  length (_chains self) = 1 /\
  results_rhat done = Ok (repeat (Str "NA") (_num_params self)) /\
  exists rows,
    _summary_list done = _summary_list self ++ rows /\
    length rows = _num_params self /\
    forall i, i < _num_params self ->
      exists row,
        nth_error rows i = Some row /\
        nth_error row 8 = Some (Str "NA") /\
        length row = match _time self with Some _ => 11 | None => 10 end /\
        nth_error row 0 =
        Some (Str match _time self with
                  | Some _ => nth i (_parameter_names self) EmptyString
                  | None => String.append "param " (str (i + 1))
                  end).
Proof.
  intros H. apply make_summary_inv in H.
  destruct H as [stacked [ess [rhat [rows [Es [Ee [Er [Erows ->]]]]]]]].
  apply summary_rhat_returns in Er. destruct Er as [Hle ->].
  apply np_vstack_nonempty in Es.
  split.
  { destruct (_chains self) as [|c [|c' t]]; simpl in *; try lia.
    congruence. }
  split; [reflexivity|].
  exists rows. cbn [_summary_list]. split; [reflexivity|].
  apply comprehension_inv in Erows.
  apply Forall2_nth with (da := 0) (db := @nil (cell F)) in Erows.
  destruct Erows as [Hlen Hrows]. rewrite length_seq in Hlen, Hrows.
  split; [exact Hlen|].
  intros i Hi. specialize (Hrows i Hi). rewrite seq_nth in Hrows by assumption.
  cbn [Nat.add] in Hrows.
  exists (nth i rows []).
  split; [apply nth_error_nth'; lia|].
  destruct (_time self) as [t|].
  - destruct (getitem (_parameter_names self) i) as [name|] eqn:En;
      [|discriminate].
    cbn [bind] in Hrows. apply getitem_inv in En.
    apply summary_row_inv in Hrows.
    destruct Hrows as [m [s [q0 [q1 [q2 [q3 [q4 [rh [e Hrow]]]]]]]]].
    destruct Hrow as [_ [_ [Hrh [_ [Hrow Heps]]]]].
    apply nth_error_repeat_inv in Hrh. subst rh.
    specialize (Heps _ eq_refl).
    destruct (nth_error (map (fun e0 => Fdiv e0 t) ess) i) as [x|];
      [|congruence].
    rewrite Hrow. rewrite (nth_error_some_nth _ _ EmptyString En).
    repeat split.
  - apply summary_row_inv in Hrows.
    destruct Hrows as [m [s [q0 [q1 [q2 [q3 [q4 [rh [e Hrow]]]]]]]]].
    destruct Hrow as [_ [_ [Hrh [_ [Hrow _]]]]].
    apply nth_error_repeat_inv in Hrh. subst rh.
    rewrite Hrow. repeat split.
Qed.

(** X16.  A call of [summary] on the object that a call of [summary] returned
    gives the same rows and leaves the object as it is. *)
Theorem summary_idempotent (self done : MCMCResults F)
    (rows : list (list (cell F))) :
  summary np_percentile call_diagnostics self = Ok (done, rows) ->
  summary np_percentile call_diagnostics done = Ok (done, rows).
Proof.
  unfold summary. destruct (_summary_list self) as [|r rest] eqn:El.
  - destruct (make_summary np_percentile call_diagnostics self)
      as [done'|] eqn:Em; [|discriminate].
    cbn [bind]. intros H. inversion H; subst done' rows; clear H.
    destruct (_summary_list done) as [|r rest] eqn:Ed; [|reflexivity].
    assert (Em' : make_summary np_percentile call_diagnostics done = Ok done).
    { apply make_summary_inv in Em.
      destruct Em as [stacked [ess [rhat [rows [Es [Ee [Er [Erows E]]]]]]]].
      rewrite El in E. rewrite E in Ed. cbn [_summary_list app] in Ed.
      subst rows. rewrite E. unfold make_summary.
      cbn [_chains _num_params _time _parameter_names _summary_list
           _ess_per_second].
      rewrite Es. cbn [bind]. rewrite Ee. cbn [bind].
      unfold summary_rhat in *. cbn [_chains _num_params]. rewrite Er.
      cbn [bind].
      destruct (_time self) as [t|]; rewrite Erows; reflexivity. }
    rewrite Em'. cbn [bind]. rewrite Ed. reflexivity.
  - intros H. inversion H; subst. rewrite El. reflexivity.
Qed.

End SummaryProperties.

(* ================================================================= *)
(** ** The results aggregator: pooled samples *)

Section Pooled.

Context {F : Type} {NF : Numeric F}.

Variable np_percentile : list (list F) -> list F -> list (list F).

Variable call_diagnostics :
  string -> list (matrix F) -> result F (list (cell F)).

Lemma np_vstack_inv (arrays : list (matrix F)) (stacked : matrix F) :
  np_vstack arrays = Ok stacked ->
  Forall (fun a => n_cols a = n_cols stacked) arrays /\
  n_rows stacked = list_sum (map (@n_rows F) arrays) /\
  entries stacked = concat (map (@entries F) arrays).
Proof.
  unfold np_vstack. destruct arrays as [|a rest]; [discriminate|].
  destruct (forallb (fun b => n_cols b =? n_cols a) rest) eqn:E;
    [|discriminate].
  intros H. inversion H; subst; clear H. cbn [n_cols n_rows entries].
  split; [|split; reflexivity].
  constructor; [reflexivity|].
  rewrite forallb_forall in E. apply Forall_forall. intros b Hb.
  apply Nat.eqb_eq. apply E. exact Hb.
Qed.

Lemma column_concat (d : F) (j : nat) (parts : list (list (list F))) :
  column d j (concat parts) = concat (map (column d j) parts).
Proof. unfold column. apply concat_map. Qed.

Lemma np_index_nonneg (len j : nat) :
  j < len -> np_index (F := F) len (Z.of_nat j) = Ok j.
Proof.
  intros Hj. unfold np_index.
  destruct (Z.leb_spec 0 (Z.of_nat j)); [|lia].
  destruct (Z.ltb_spec (Z.of_nat j) (Z.of_nat len)); [|lia].
  cbn. rewrite Nat2Z.id. reflexivity.
Qed.

Lemma np_index_negative (len j : nat) :
  j < len -> np_index (F := F) len (Z.of_nat j - Z.of_nat len) = Ok j.
Proof.
  intros Hj. unfold np_index.
  destruct (Z.leb_spec 0 (Z.of_nat j - Z.of_nat len)); [lia|].
  cbn [andb].
  destruct (Z.leb_spec (- Z.of_nat len) (Z.of_nat j - Z.of_nat len)); [|lia].
  destruct (Z.ltb_spec (Z.of_nat j - Z.of_nat len) 0); [|lia].
  cbn. f_equal. lia.
Qed.

Lemma np_index_outside (len : nat) (z : Z) :
  (z < - Z.of_nat len \/ Z.of_nat len <= z)%Z ->
  np_index (F := F) len z = Raise (IndexError Msg_index).
Proof.
  intros Hz. unfold np_index.
  destruct (Z.leb_spec 0 z); destruct (Z.ltb_spec z (Z.of_nat len));
    destruct (Z.leb_spec (- Z.of_nat len) z); destruct (Z.ltb_spec z 0);
    cbn; try reflexivity; lia.
Qed.

Lemma np_index_inv (len : nat) (z : Z) (j : nat) :
  np_index (F := F) len z = Ok j -> j < len.
Proof.
  unfold np_index.
  destruct (Z.leb_spec 0 z); destruct (Z.ltb_spec z (Z.of_nat len));
    destruct (Z.leb_spec (- Z.of_nat len) z); destruct (Z.ltb_spec z 0);
    cbn; intros E; inversion E; lia.
Qed.

(** X17.  [extract_all] is the stack of the chains, and [extract] of a
    parameter number is the column of that number of every chain, one
    chain after the other; a negative number counts from the last
    parameter, a number outside [-p .. p - 1] raises [IndexError], and
    chains that do not stack raise the error of [np.vstack]. *)
Theorem extract_pooled_column (self : MCMCResults F) :
  (forall e z, np_vstack (_chains self) = Raise e ->
               extract self z = Raise e /\ extract_all self = Raise e) /\
  (forall stacked, np_vstack (_chains self) = Ok stacked ->
     extract_all self = Ok stacked /\
     (forall j, j < n_cols stacked ->
        extract self (Z.of_nat j) =
        Ok (concat (map (fun c => column (Fof_int 0) j (entries c))
                        (_chains self))) /\
        extract self (Z.of_nat j - Z.of_nat (n_cols stacked)) =
        extract self (Z.of_nat j)) /\
     (forall z, (z < - Z.of_nat (n_cols stacked)
                 \/ Z.of_nat (n_cols stacked) <= z)%Z ->
        extract self z = Raise (IndexError Msg_index))).
Proof.
  split.
  - intros e z E. unfold extract, extract_all. rewrite E. split; reflexivity.
  - intros stacked E. unfold extract, extract_all. rewrite E. cbn [bind].
    split; [reflexivity|]. split.
    + intros j Hj. rewrite np_index_nonneg, np_index_negative by assumption.
      cbn [bind]. split; [|reflexivity].
      apply np_vstack_inv in E. destruct E as [_ [_ ->]].
      rewrite column_concat, map_map. reflexivity.
    + intros z Hz. rewrite np_index_outside by assumption. reflexivity.
Qed.

Lemma concat_rect (p : nat) (parts : list (list (list F))) :
  Forall (Forall (fun r => length r = p)) parts ->
  Forall (fun r => length r = p) (concat parts).
Proof.
  induction 1 as [|a t Ha _ IH]; simpl; [constructor|].
  apply Forall_app. split; assumption.
Qed.

Lemma np_vstack_rect (arrays : list (matrix F)) (stacked : matrix F) :
  np_vstack arrays = Ok stacked ->
  Forall (fun a => rect2 (n_rows a) (n_cols a) (entries a)) arrays ->
  rect2 (n_rows stacked) (n_cols stacked) (entries stacked).
Proof.
  intros E Hwf. apply np_vstack_inv in E. destruct E as [Hc [-> ->]].
  split.
  - clear Hc. induction Hwf as [|a t [Ha _] _ IH]; simpl; [reflexivity|].
    rewrite length_app, IH, Ha. reflexivity.
  - apply concat_rect. apply Forall_map.
    rewrite Forall_forall in *. intros a Ha.
    destruct (Hwf a Ha) as [_ Hr]. rewrite <- (Hc a Ha). exact Hr.
Qed.

Lemma extract_inv (self : MCMCResults F) (stacked : matrix F) (j : nat)
    (samples : list F) :
  np_vstack (_chains self) = Ok stacked ->
  extract self (Z.of_nat j) = Ok samples ->
  j < n_cols stacked /\ samples = column (Fof_int 0) j (entries stacked).
Proof.
  intros Es Hx. unfold extract in Hx. rewrite Es in Hx.
  cbn [bind] in Hx.
  destruct (np_index (n_cols stacked) (Z.of_nat j)) as [j'|] eqn:Ej;
    [|discriminate].
  assert (Hj' : j' < n_cols stacked) by (apply np_index_inv in Ej; exact Ej).
  assert (j' = j).
  { destruct (Nat.lt_ge_cases j (n_cols stacked)) as [Hlt|Hge].
    - rewrite np_index_nonneg in Ej by assumption. congruence.
    - rewrite np_index_outside in Ej by lia. discriminate. }
  subst j'. cbn [bind] in Hx. inversion Hx. split; [assumption|reflexivity].
Qed.

(** [ess] after [make_summary]: [ess_single_param] of every column that
    [extract] returns. *)
Lemma summary_ess_of_extract (self done : MCMCResults F) :
  make_summary np_percentile call_diagnostics self = Ok done ->
  exists v,
    ess done = Ok v /\
    forall j samples,
      extract self (Z.of_nat j) = Ok samples ->
      ess_single_param samples = Ok (nth j v (Fof_int 0)).
Proof.
  intros H. apply make_summary_inv in H.
  destruct H as [stacked [v [rhat [rows [Es [Ee [_ [_ ->]]]]]]]].
  eexists. split; [reflexivity|].
  intros j samples Hx.
  destruct (@extract_inv self stacked j samples Es Hx) as [Hj ->].
  unfold to_ndarray in Ee. cbn [effective_sample_size] in Ee.
  destruct (n_rows stacked <? 2); [discriminate|].
  apply comprehension_inv in Ee.
  apply Forall2_nth with (da := 0) (db := Fof_int 0) in Ee.
  destruct Ee as [_ Hall]. rewrite length_seq in Hall.
  specialize (Hall j Hj). rewrite seq_nth in Hall by assumption.
  exact Hall.
Qed.

End Pooled.

(** [mean] and [std] after [make_summary], in exact arithmetic, where the
    order of the additions of a sum does not matter. *)
Lemma summary_moments_of_extract
    (np_percentile : list (list R) -> list R -> list (list R))
    (call_diagnostics : string -> list (matrix R) -> result R (list (cell R)))
    (self done : MCMCResults R) :
  Forall (fun a => rect2 (n_rows a) (n_cols a) (entries a)) (_chains self) ->
  make_summary np_percentile call_diagnostics self = Ok done ->
  exists m s,
    mean done = Ok m /\ std done = Ok s /\
    forall j samples,
      extract self (Z.of_nat j) = Ok samples ->
      nth j m 0%R = np_mean samples /\
      nth j s 0%R = np_std samples.
Proof.
  intros Hwf H. apply make_summary_inv in H.
  destruct H as [stacked [v [rhat [rows [Es [Ee [_ [_ ->]]]]]]]].
  do 2 eexists. split; [reflexivity|]. split; [reflexivity|].
  intros j samples Hx.
  destruct (@extract_inv R exact self stacked j samples Es Hx) as [Hj ->].
  pose proof (np_vstack_rect Es Hwf) as Hrect.
  split.
  - apply (@mean_axis0_nth R exact (n_rows stacked)); assumption.
  - rewrite nth_map_in with (da := 0%R)
      by (rewrite (var_axis0_length 0 Hrect); assumption).
    unfold np_std. f_equal.
    apply (@var_axis0_nth R exact 0 (n_rows stacked)); assumption.
Qed.

(** X18.  After a successful [make_summary], [ess] returns, for every
    parameter, [ess_single_param] of the samples that [extract] returns
    for that parameter; and in exact arithmetic, on well-formed chains,
    [mean] and [std] return the mean and the standard deviation of those
    samples. *)
Theorem summary_statistics_of_extract :
  (forall (F : Type) (NF : Numeric F)
          (np_percentile : list (list F) -> list F -> list (list F))
          (call_diagnostics :
             string -> list (matrix F) -> result F (list (cell F)))
          (self done : MCMCResults F),
     make_summary np_percentile call_diagnostics self = Ok done ->
     exists v,
       ess done = Ok v /\
       forall j samples,
         extract self (Z.of_nat j) = Ok samples ->
         ess_single_param samples = Ok (nth j v (Fof_int 0))) /\
  (forall (np_percentile : list (list R) -> list R -> list (list R))
          (call_diagnostics :
             string -> list (matrix R) -> result R (list (cell R)))
          (self done : MCMCResults R),
     Forall (fun a => rect2 (n_rows a) (n_cols a) (entries a))
            (_chains self) ->
     make_summary np_percentile call_diagnostics self = Ok done ->
     exists m s,
       mean done = Ok m /\ std done = Ok s /\
       forall j samples,
         extract self (Z.of_nat j) = Ok samples ->
         nth j m 0%R = np_mean samples /\
         nth j s 0%R = np_std samples).
Proof.
  split.
  - intros F NF np_percentile call_diagnostics self done H.
    exact (@summary_ess_of_extract F NF np_percentile call_diagnostics
             self done H).
  - intros np_percentile call_diagnostics self done Hwf H.
    exact (@summary_moments_of_extract np_percentile call_diagnostics
             self done Hwf H).
Qed.

(* ================================================================= *)
(** ** Concrete runs of the aggregator *)

Section Outcome.

Context {F : Type} {NF : Numeric F}.

(** X2.  [autocorrelation] and [ess_single_param] raise on the empty sequence
    only, with the [ValueError] of [np.correlate]; on a sequence of
    [n >= 1] samples [autocorrelation] returns [n] lags and
    [ess_single_param] returns a number, whatever the samples are. *)
Theorem autocorrelation_outcome (x : list F) :
  (x = [] ->
   autocorrelation x = Raise (ValueError Msg_correlate_empty) /\
   ess_single_param x = Raise (ValueError Msg_correlate_empty)) /\
  (x <> [] ->
   exists rho e,
     autocorrelation x = Ok rho /\ length rho = length x /\
     ess_single_param x = Ok e).
Proof.
  split.
  - intros ->. split; reflexivity.
  - intros Hx. destruct (autocorrelation_returns Hx) as [rho [Hr Hl]].
    destruct (ess_single_param_returns Hx) as [e He].
    exists rho, e. auto.
Qed.

End Outcome.

Lemma autocorrelation_outcome_witness :
  autocorrelation (@nil float) = Raise (ValueError Msg_correlate_empty) /\
  exists rho e,
    autocorrelation [1; 1; 2]%float = Ok rho /\ length rho = 3 /\
    ess_single_param [1; 1; 2]%float = Ok e.
Proof.
  split.
  - exact (proj1 (proj1 (@autocorrelation_outcome float float64 []) eq_refl)).
  - refine (proj2 (@autocorrelation_outcome float float64 [1; 1; 2]%float) _).
    discriminate.
Defined.

Lemma MCMCResults_init_returns_witness :
  match MCMCResults_init [Matrix 2 2 [[1; 2]; [3; 4]]%float] (Some 2%float)
                         None with
  | Ok self =>
      length (_parameter_names self) = _num_params self /\
      _summary_list self = [] /\
      _mean self = None
  | Raise _ => False
  end.
Proof.
  destruct (MCMCResults_init [Matrix 2 2 [[1; 2]; [3; 4]]%float]
                             (Some 2%float) None) as [self|e] eqn:E.
  - pose proof (@MCMCResults_init_returns float float64 _ _ _ _ E) as H.
    split; [apply H|]. split; apply H.
  - vm_compute in E. discriminate.
Defined.

Lemma MCMCResults_init_errors_witness :
  MCMCResults_init (@nil (matrix float)) None None =
    Raise (IndexError Msg_index) /\
  MCMCResults_init [Matrix 2 2 [[1; 2]; [3; 4]]%float] (Some 0%float)
                   (Some ["a"%string]) =
    Raise (ValueError Msg_elapsed_time) /\
  MCMCResults_init [Matrix 2 2 [[1; 2]; [3; 4]]%float] None
                   (Some ["a"%string]) =
    Raise (ValueError Msg_parameter_names).
Proof.
  split; [|split].
  - exact (proj1 (@MCMCResults_init_errors float float64 [] None None)
                 eq_refl).
  - refine (proj1 (proj2 (@MCMCResults_init_errors float float64
                            [Matrix 2 2 [[1; 2]; [3; 4]]%float]
                            (Some 0%float) (Some ["a"%string])))
                  0%float _ eq_refl eq_refl).
    discriminate.
  - refine (proj2 (proj2 (@MCMCResults_init_errors float float64
                            [Matrix 2 2 [[1; 2]; [3; 4]]%float]
                            None (Some ["a"%string])))
                  _ _ _ eq_refl _ eq_refl _).
    + intros t Ht. discriminate.
    + cbn. discriminate.
Defined.

Lemma accessors_before_summary_witness :
  match MCMCResults_init [Matrix 2 2 [[1; 2]; [3; 4]]%float] None None with
  | Ok self => mean self = Raise (AttributeError "MCMCResults" "_mean")
  | Raise _ => False
  end.
Proof.
  destruct (MCMCResults_init [Matrix 2 2 [[1; 2]; [3; 4]]%float] None None)
    as [self|e] eqn:E.
  - exact (proj1 (@accessors_before_summary float float64 _ _ _ _ E)).
  - vm_compute in E. discriminate.
Defined.

Lemma make_summary_rows_witness :
  let self := Build_MCMCResults [Matrix 4 1 [[1]; [2]; [4]; [3]]%float] 1
                (Some 2%float) ["a"%string] []
                None None None None None None None in
  let np_percentile := fun (_ : list (list float)) (q : list float) =>
                         map (fun _ => [0%float]) q in
  let call := fun (_ : string) (_ : list (matrix float)) =>
                Ok (F := float) (@nil (cell float)) in
  match make_summary np_percentile call self with
  | Ok done =>
      length (_chains self) = 1 /\
      results_rhat done = Ok (repeat (Str "NA") 1)
  | Raise _ => False
  end.
Proof.
  intros self np_percentile call.
  destruct (make_summary np_percentile call self) as [done|e] eqn:E.
  - pose proof (@make_summary_rows float float64 np_percentile call self done
                  E) as H.
    split; apply H.
  - vm_compute in E. discriminate.
Defined.

Lemma summary_idempotent_witness :
  let self := Build_MCMCResults [Matrix 4 1 [[1]; [2]; [4]; [3]]%float] 1
                None ["a"%string] []
                None None None None None None None in
  let np_percentile := fun (_ : list (list float)) (q : list float) =>
                         map (fun _ => [0%float]) q in
  let call := fun (_ : string) (_ : list (matrix float)) =>
                Ok (F := float) (@nil (cell float)) in
  match summary np_percentile call self with
  | Ok (done, rows) => summary np_percentile call done = Ok (done, rows)
  | Raise _ => False
  end.
Proof.
  intros self np_percentile call.
  destruct (summary np_percentile call self) as [[done rows]|e] eqn:E.
  - exact (@summary_idempotent float float64 np_percentile call self done
             rows E).
  - vm_compute in E. discriminate.
Defined.

Lemma extract_pooled_column_witness :
  let self := Build_MCMCResults
                [Matrix 2 2 [[1; 2]; [3; 4]]%float;
                 Matrix 1 2 [[5; 6]]%float] 2
                None ["a"; "b"]%string []
                None None None None None None None in
  extract self 1 = Ok [2; 4; 6]%float /\
  extract self (-1) = extract self 1 /\
  extract self 2 = Raise (IndexError Msg_index).
Proof.
  intros self.
  pose proof (proj2 (@extract_pooled_column float float64 self)
                (Matrix 3 2 [[1; 2]; [3; 4]; [5; 6]]%float) eq_refl) as H.
  destruct H as [_ [Hcol Hout]].
  split; [exact (proj1 (Hcol 1 (le_n 2)))|].
  split; [exact (proj2 (Hcol 1 (le_n 2)))|].
  apply Hout. right. cbn. discriminate.
Defined.

Lemma summary_statistics_of_extract_witness :
  (let self := Build_MCMCResults [Matrix 4 1 [[1]; [2]; [4]; [3]]%float] 1
                 None ["a"%string] []
                 None None None None None None None in
   let np_percentile := fun (_ : list (list float)) (q : list float) =>
                          map (fun _ => [0%float]) q in
   let call := fun (_ : string) (_ : list (matrix float)) =>
                 Ok (F := float) (@nil (cell float)) in
   match make_summary np_percentile call self with
   | Ok done =>
       exists v,
         ess done = Ok v /\
         forall j samples,
           extract self (Z.of_nat j) = Ok samples ->
           ess_single_param samples = Ok (nth j v (Fof_int 0))
   | Raise _ => False
   end) /\
  (let self := Build_MCMCResults [Matrix 2 1 [[1]; [2]]%R] 1
                 None ["a"%string] []
                 None None None None None None None in
   let np_percentile := fun (_ : list (list R)) (q : list R) =>
                          map (fun _ => [0%R]) q in
   let call := fun (_ : string) (_ : list (matrix R)) =>
                 Ok (F := R) (@nil (cell R)) in
   match make_summary np_percentile call self with
   | Ok done =>
       exists m s,
         mean done = Ok m /\ std done = Ok s /\
         forall j samples,
           extract self (Z.of_nat j) = Ok samples ->
           nth j m 0%R = np_mean samples /\
           nth j s 0%R = np_std samples
   | Raise _ => False
   end).
Proof.
  split.
  - intros self np_percentile call.
    destruct (make_summary np_percentile call self) as [done|e] eqn:E.
    + exact (proj1 summary_statistics_of_extract float float64 np_percentile
               call self done E).
    + vm_compute in E. discriminate.
  - intros self np_percentile call.
    destruct (make_summary np_percentile call self) as [done|e] eqn:E.
    + refine (proj2 summary_statistics_of_extract np_percentile call self
                done _ E).
      repeat constructor.
    + cbv in E. discriminate.
Defined.

(* ================================================================= *)
(** ** Errors of the summary before [rhat] is looked up *)

Section SummaryErrors.

Context {F : Type} {NF : Numeric F}.

Variable np_percentile : list (list F) -> list F -> list (list F).

Variable call_diagnostics :
  string -> list (matrix F) -> result F (list (cell F)).

Lemma np_vstack_mismatch (first : matrix F) (rest : list (matrix F)) :
  Exists (fun b => n_cols b <> n_cols first) rest ->
  np_vstack (first :: rest) = Raise (ValueError Msg_vstack_mismatch).
Proof.
  intros H. unfold np_vstack.
  destruct (forallb (fun b => n_cols b =? n_cols first) rest) eqn:E;
    [|reflexivity].
  exfalso. rewrite forallb_forall in E. apply Exists_exists in H.
  destruct H as [b [Hb Hne]]. apply Hne. apply Nat.eqb_eq. apply E. exact Hb.
Qed.

(** The constructor returns an object for a non-empty list of chains, a
    time that is [None] or not [<= 0], and names that are [None] or as
    many as the columns of the first chain. *)
Lemma MCMCResults_init_succeeds (first : matrix F) (rest : list (matrix F))
    (time : option F) (parameter_names : option (list string)) :
  match time with Some t => Fleb t (Fof_int 0) = false | None => True end ->
  match parameter_names with
  | Some names => n_cols first = length names
  | None => True
  end ->
  exists self,
    MCMCResults_init (first :: rest) time parameter_names = Ok self.
Proof.
  intros Ht Hn. unfold MCMCResults_init, getitem. cbn [nth_error bind].
  replace (match time with Some t => Fleb t (Fof_int 0) | None => false end)
    with false by (destruct time; [symmetry; exact Ht|reflexivity]).
  replace (match parameter_names with
           | Some names => negb (n_cols first =? length names)
           | None => false
           end)
    with false
    by (destruct parameter_names;
        [rewrite Hn, Nat.eqb_refl; reflexivity|reflexivity]).
  eexists. reflexivity.
Qed.

Lemma summary_errors_after_init (chains : list (matrix F)) (time : option F)
    (parameter_names : option (list string)) (self : MCMCResults F) :
  MCMCResults_init chains time parameter_names = Ok self ->
  (forall first rest,
     chains = first :: rest ->
     Exists (fun b => n_cols b <> n_cols first) rest ->
     summary np_percentile call_diagnostics self =
       Raise (ValueError Msg_vstack_mismatch) /\
     forall z, extract self z = Raise (ValueError Msg_vstack_mismatch)) /\
  (forall stacked,
     np_vstack chains = Ok stacked -> n_rows stacked = 1 ->
     summary np_percentile call_diagnostics self =
       Raise (ValueError Msg_two_samples)).
Proof.
  intros Hinit.
  assert (Hself : _chains self = chains /\ _summary_list self = []).
  { unfold MCMCResults_init, getitem in Hinit.
    destruct chains as [|first rest]; [discriminate|].
    cbn [nth_error bind] in Hinit.
    destruct (match time with Some t => Fleb t (Fof_int 0) | None => false end);
      [discriminate|].
    destruct (match parameter_names with
              | Some names => negb (n_cols first =? length names)
              | None => false
              end); [discriminate|].
    inversion Hinit; subst. split; reflexivity. }
  destruct Hself as [Hc Hl]. split.
  - intros first rest -> Hex.
    pose proof (@np_vstack_mismatch first rest Hex) as Ev. split.
    + unfold summary. rewrite Hl. unfold make_summary. rewrite Hc, Ev.
      reflexivity.
    + intros z. unfold extract. rewrite Hc, Ev. reflexivity.
  - intros stacked Es Hn. unfold summary. rewrite Hl.
    unfold make_summary. rewrite Hc, Es. cbn [bind].
    unfold to_ndarray. cbn [effective_sample_size]. rewrite Hn.
    reflexivity.
Qed.

(** X19.  The constructor does not compare the chains: for a non-empty
    list of chains, a time that is [None] or not [<= 0] and names that are
    [None] or as many as the columns of the first chain, it returns an
    object, whatever the later chains are.  On that object, chains with
    different numbers of columns make [summary] and [extract] raise the
    [ValueError] of [np.vstack]; and chains that pool to a single row make
    [summary] raise the two-samples [ValueError]. *)
Theorem summary_errors (first : matrix F) (rest : list (matrix F))
    (time : option F) (parameter_names : option (list string)) :
  match time with Some t => Fleb t (Fof_int 0) = false | None => True end ->
  match parameter_names with
  | Some names => n_cols first = length names
  | None => True
  end ->
  exists self,
    MCMCResults_init (first :: rest) time parameter_names = Ok self /\
    (Exists (fun b => n_cols b <> n_cols first) rest ->
     summary np_percentile call_diagnostics self =
       Raise (ValueError Msg_vstack_mismatch) /\
     forall z, extract self z = Raise (ValueError Msg_vstack_mismatch)) /\
    (forall stacked,
       np_vstack (first :: rest) = Ok stacked -> n_rows stacked = 1 ->
       summary np_percentile call_diagnostics self =
         Raise (ValueError Msg_two_samples)).
Proof.
  intros Ht Hn.
  destruct (@MCMCResults_init_succeeds first rest time parameter_names Ht Hn)
    as [self Hinit].
  exists self. split; [exact Hinit|].
  destruct (@summary_errors_after_init (first :: rest) time parameter_names
              self Hinit) as [Hmis Hone].
  split.
  - intros Hex. exact (Hmis first rest eq_refl Hex).
  - exact Hone.
Qed.

End SummaryErrors.

Lemma summary_errors_witness :
  let np_percentile := fun (_ : list (list float)) (q : list float) =>
                         map (fun _ => [0%float]) q in
  let call := fun (_ : string) (_ : list (matrix float)) =>
                Ok (F := float) (@nil (cell float)) in
  (exists self,
     MCMCResults_init [Matrix 2 2 [[1; 2]; [3; 4]]%float;
                       Matrix 2 1 [[5]; [6]]%float]
                      (Some 2%float) (Some ["a"; "b"]%string) = Ok self /\
     summary np_percentile call self = Raise (ValueError Msg_vstack_mismatch)
     /\ extract self 0 = Raise (ValueError Msg_vstack_mismatch)) /\
  (exists self,
     MCMCResults_init [Matrix 1 2 [[1; 2]]%float] None None = Ok self /\
     summary np_percentile call self = Raise (ValueError Msg_two_samples)).
Proof.
  intros np_percentile call. split.
  - destruct (@summary_errors float float64 np_percentile call
                (Matrix 2 2 [[1; 2]; [3; 4]]%float)
                [Matrix 2 1 [[5]; [6]]%float]
                (Some 2%float) (Some ["a"; "b"]%string))
      as [self [Hinit [Hmis _]]].
    + vm_compute. reflexivity.
    + reflexivity.
    + exists self. split; [exact Hinit|].
      assert (Hex : Exists
                (fun b : matrix float =>
                   n_cols b <> n_cols (Matrix 2 2 [[1; 2]; [3; 4]]%float))
                [Matrix 2 1 [[5]; [6]]%float]).
      { constructor. cbn. discriminate. }
      destruct (Hmis Hex) as [Hs Hx]. split; [exact Hs|apply Hx].
  - destruct (@summary_errors float float64 np_percentile call
                (Matrix 1 2 [[1; 2]]%float) [] None None I I)
      as [self [Hinit [_ Hone]]].
    exists self. split; [exact Hinit|].
    exact (Hone _ eq_refl eq_refl).
Defined.
